(** * flightradar24_tester: the query function [fetch_aircraft_data]

    A shallow embedding of [fr24_tester.py] and [fr24_tester_backup.py].

    The query function performs one [requests.get], decodes the body and runs
    a filter-and-cap loop over the decoded ['aircraft'] list.  The embedding
    follows the Python text statement by statement:

    - decoded JSON is an inductive type; Python dicts are association lists in
      insertion order (the order [json.dumps] prints and [for] iterates);
    - exceptions are values of an error monad, [try]/[except] is a handler
      list tried in textual order with [isinstance];
    - the network is an input (what [requests.get] does when called), the
      request that was issued is part of the output. *)

From Stdlib Require Import ZArith List String Ascii Bool Lia DecimalString.
Import ListNotations.
Local Open Scope string_scope.
Local Open Scope Z_scope.
Local Set Warnings "-register-all".

(** ** Python values and exceptions *)

Module Py.

(** What [json.loads] produces.  A [float] is kept as its literal: the
    program never computes with numbers.  A [JObj] is a [dict]: [dict_get]
    reads the first binding of a key.  A [str] is held as the bytes of its
    UTF-8 encoding, so equality and the search for an ASCII substring are
    those of the [str]. *)
Inductive json : Type :=
| JNull
| JBool (b : bool)
| JInt (z : Z)
| JFloat (lit : string)
| JStr (s : string)
| JArr (items : list json)
| JObj (kvs : list (string * json)).

(** The exception classes that can reach the [except] clauses. The
    [requests.exceptions] ones are prefixed by their module where the name
    clashes with a builtin. *)
Inductive exn_class : Type :=
| BaseException_
| Exception_
| ValueError
| OSError
| TypeError
| AttributeError
| KeyError
| JSONDecodeError            (* json.JSONDecodeError *)
| RequestException           (* requests.exceptions.RequestException *)
| ConnectionError            (* requests.exceptions.ConnectionError *)
| Timeout                    (* requests.exceptions.Timeout *)
| HTTPError                  (* requests.exceptions.HTTPError *)
| TooManyRedirects           (* requests.exceptions.TooManyRedirects *)
| InvalidJSONError           (* requests.exceptions.InvalidJSONError *)
| RequestsJSONDecodeError.   (* requests.exceptions.JSONDecodeError *)

Definition exn_class_eq_dec (a b : exn_class) : {a = b} + {a <> b}.
Proof. decide equality. Defined.

(** Method resolution order of each class: the class and all its bases.
    [requests.exceptions.JSONDecodeError] (requests 2.27 and later) derives
    from both [InvalidJSONError], a [RequestException], and
    [json.JSONDecodeError]. *)
Definition mro (c : exn_class) : list exn_class :=
  match c with
  | BaseException_ => [BaseException_]
  | Exception_ => [Exception_; BaseException_]
  | ValueError => [ValueError; Exception_; BaseException_]
  | OSError => [OSError; Exception_; BaseException_]
  | TypeError => [TypeError; Exception_; BaseException_]
  | AttributeError => [AttributeError; Exception_; BaseException_]
  | KeyError => [KeyError; Exception_; BaseException_]
  | JSONDecodeError => [JSONDecodeError; ValueError; Exception_; BaseException_]
  | RequestException => [RequestException; OSError; Exception_; BaseException_]
  | ConnectionError =>
      [ConnectionError; RequestException; OSError; Exception_; BaseException_]
  | Timeout => [Timeout; RequestException; OSError; Exception_; BaseException_]
  | HTTPError => [HTTPError; RequestException; OSError; Exception_; BaseException_]
  | TooManyRedirects =>
      [TooManyRedirects; RequestException; OSError; Exception_; BaseException_]
  | InvalidJSONError =>
      [InvalidJSONError; RequestException; OSError; Exception_; BaseException_]
  | RequestsJSONDecodeError =>
      [RequestsJSONDecodeError; InvalidJSONError; RequestException; OSError;
       JSONDecodeError; ValueError; Exception_; BaseException_]
  end.

(** An exception object: its class and [str(e)]. *)
Record exn : Type := Exn { exn_cls : exn_class; exn_str : string }.

Definition isinstance (e : exn) (c : exn_class) : bool :=
  existsb (fun b => if exn_class_eq_dec b c then true else false) (mro (exn_cls e)).

(** A computation either returns or raises. *)
Inductive result (A : Type) : Type :=
| Ok (a : A)
| Raise (e : exn).
Arguments Ok {A} a.
Arguments Raise {A} e.

Definition bind {A B : Type} (m : result A) (k : A -> result B) : result B :=
  match m with
  | Ok a => k a
  | Raise e => Raise e
  end.

(** [try: body except c1 as e: h1 e except c2 as e: h2 e ...]: the first
    clause whose class the exception is an instance of handles it. *)
Fixpoint dispatch {A : Type} (e : exn)
    (handlers : list (exn_class * (exn -> result A))) : result A :=
  match handlers with
  | [] => Raise e
  | (c, h) :: rest => if isinstance e c then h e else dispatch e rest
  end.

Definition try_except {A : Type} (body : result A)
    (handlers : list (exn_class * (exn -> result A))) : result A :=
  match body with
  | Ok a => Ok a
  | Raise e => dispatch e handlers
  end.

(** Truth value of an [Optional[str]]: [None] and [''] are false. *)
Definition truthy (o : option string) : bool :=
  match o with
  | Some (String _ _) => true
  | _ => false
  end.

(** [x if x else d] on an [Optional[str]]. *)
Definition if_else (o : option string) (d : string) : string :=
  match o with
  | Some (String c s) => String c s
  | _ => d
  end.

(** [f'{x}'] on an [Optional[str]]. *)
Definition fmt (o : option string) : string :=
  match o with
  | Some s => s
  | None => "None"
  end.

Fixpoint dict_get (key : string) (kvs : list (string * json)) : option json :=
  match kvs with
  | [] => None
  | (k, v) :: rest => if String.eqb k key then Some v else dict_get key rest
  end.

Definition dict_keys (kvs : list (string * json)) : list string := map fst kvs.

(** [needle in hay] on two [str]. *)
Fixpoint str_contains (needle hay : string) : bool :=
  if String.prefix needle hay then true
  else match hay with
       | EmptyString => false
       | String _ hay' => str_contains needle hay'
       end.

(** [v == s] where [s] is a [str]: only an equal [str] is equal. *)
Definition eq_str (v : json) (s : string) : bool :=
  match v with
  | JStr t => String.eqb t s
  | _ => false
  end.

(** [v != fmt o], the comparison of a decoded value with a filter. *)
Definition ne (v : json) (o : option string) : bool :=
  match o with
  | Some s => negb (eq_str v s)
  | None => match v with JNull => false | _ => true end
  end.

(** [key in data]. *)
Definition contains (key : string) (data : json) : result bool :=
  match data with
  | JObj kvs => Ok (match dict_get key kvs with Some _ => true | None => false end)
  | JArr items => Ok (existsb (fun v => eq_str v key) items)
  | JStr s => Ok (str_contains key s)
  | JNull => Raise (Exn TypeError "argument of type 'NoneType' is not iterable")
  | JBool _ => Raise (Exn TypeError "argument of type 'bool' is not iterable")
  | JInt _ => Raise (Exn TypeError "argument of type 'int' is not iterable")
  | JFloat _ => Raise (Exn TypeError "argument of type 'float' is not iterable")
  end.

(** [data[key]] with a [str] key. *)
Definition getitem (data : json) (key : string) : result json :=
  match data with
  | JObj kvs =>
      match dict_get key kvs with
      | Some v => Ok v
      | None => Raise (Exn KeyError ("'" ++ key ++ "'"))
      end
  | JArr _ => Raise (Exn TypeError "list indices must be integers or slices, not str")
  | JStr _ => Raise (Exn TypeError "string indices must be integers, not 'str'")
  | JNull => Raise (Exn TypeError "'NoneType' object is not subscriptable")
  | JBool _ => Raise (Exn TypeError "'bool' object is not subscriptable")
  | JInt _ => Raise (Exn TypeError "'int' object is not subscriptable")
  | JFloat _ => Raise (Exn TypeError "'float' object is not subscriptable")
  end.

(** A byte [10xxxxxx] continues the code point the previous byte began. *)
Definition is_continuation (c : ascii) : bool :=
  match c with
  | Ascii _ _ _ _ _ _ false true => true
  | _ => false
  end.

(** The code points of a [str], each as the bytes that encode it: a byte is
    joined to the item that follows it when that item begins with a
    continuation byte. *)
Fixpoint code_points (s : string) : list string :=
  match s with
  | EmptyString => []
  | String c s' =>
      let rest := code_points s' in
      match rest with
      | String d k :: items =>
          if is_continuation d then String c (String d k) :: items
          else String c EmptyString :: rest
      | _ => String c EmptyString :: rest
      end
  end.

(** The characters of a [str], one item per code point. *)
Definition chars (s : string) : list json := map JStr (code_points s).

(** The items a [for] loop over [v] visits. *)
Definition iter (v : json) : result (list json) :=
  match v with
  | JArr items => Ok items
  | JObj kvs => Ok (map JStr (dict_keys kvs))
  | JStr s => Ok (chars s)
  | JNull => Raise (Exn TypeError "'NoneType' object is not iterable")
  | JBool _ => Raise (Exn TypeError "'bool' object is not iterable")
  | JInt _ => Raise (Exn TypeError "'int' object is not iterable")
  | JFloat _ => Raise (Exn TypeError "'float' object is not iterable")
  end.

(** [v.get(key)]: only a [dict] has the method; a missing key gives [None]. *)
Definition get (v : json) (key : string) : result json :=
  match v with
  | JObj kvs =>
      Ok (match dict_get key kvs with Some x => x | None => JNull end)
  | JArr _ => Raise (Exn AttributeError "'list' object has no attribute 'get'")
  | JStr _ => Raise (Exn AttributeError "'str' object has no attribute 'get'")
  | JNull => Raise (Exn AttributeError "'NoneType' object has no attribute 'get'")
  | JBool _ => Raise (Exn AttributeError "'bool' object has no attribute 'get'")
  | JInt _ => Raise (Exn AttributeError "'int' object has no attribute 'get'")
  | JFloat _ => Raise (Exn AttributeError "'float' object has no attribute 'get'")
  end.

(** [len(l)] as a Python [int]. *)
Definition len {A : Type} (l : list A) : Z := Z.of_nat (List.length l).

End Py.

Notation "x <- m ;; k" := (Py.bind m (fun x => k))
  (at level 61, m at next level, right associativity).

(** ** The part of the [requests] library the program calls *)

Module Requests.
Import Py.

(** The arguments of [requests.get(url, params=..., headers=..., timeout=...)];
    [headers] is [None] when the keyword is not passed. *)
Record Request : Type := {
  url : string;
  params : list (string * string);
  headers : option (list (string * string));
  timeout : Z
}.

(** A received response: the status line, the final URL, and what
    [response.json()] does on the body (the decoded value, or the decoder's
    exception when the body is not JSON). *)
Record Response : Type := {
  status_code : Z;
  reason : string;
  response_url : string;
  json_ : result json
}.

Definition str_of_int (z : Z) : string := NilZero.string_of_int (Z.to_int z).

(** [Response.raise_for_status]: an [HTTPError] for the client-error and
    server-error ranges, nothing otherwise. *)
Definition raise_for_status (r : Response) : result unit :=
  if (400 <=? status_code r) && (status_code r <? 500) then
    Raise (Exn HTTPError (str_of_int (status_code r) ++ " Client Error: "
                          ++ reason r ++ " for url: " ++ response_url r))
  else if (500 <=? status_code r) && (status_code r <? 600) then
    Raise (Exn HTTPError (str_of_int (status_code r) ++ " Server Error: "
                          ++ reason r ++ " for url: " ++ response_url r))
  else Ok tt.

End Requests.

(** ** The process around the query function *)

Module Process.
Import Py.

(** [os.environ] once the imports have run (the optional [load_dotenv()]
    included); [getenv] is [os.getenv]. *)
Definition environ : Type := list (string * string).

Fixpoint getenv (key : string) (env : environ) : option string :=
  match env with
  | [] => None
  | (k, v) :: rest => if String.eqb k key then Some v else getenv key rest
  end.

(** What [main] writes: [print(text)] and
    [print(json.dumps(value, indent=indent))]. *)
Inductive output : Type :=
| Print (text : string)
| PrintJson (value : json) (indent : Z).

(** One run of [main] from the parsed arguments on: the calls of
    [requests.get] in order, what was printed, and whether [main] returned
    or an exception escaped it. *)
Record run : Type := {
  calls : list Requests.Request;
  stdout : list output;
  exit : result unit
}.

End Process.

(** ** [fr24_tester.py] *)

Module Main.
Import Py Requests.

(** The [for aircraft in data['aircraft']] loop (lines 106-117), with the
    list built so far as loop state.  [continue] is the recursive call on the
    remaining items with the state unchanged, [break] returns the state. *)
Fixpoint filter_loop (aircraft_type registration : option string) (limit : Z)
    (items : list json) (aircraft_list : list json) : result (list json) :=
  match items with
  | [] => Ok aircraft_list
  | aircraft :: rest =>
      skip_type <- (if truthy aircraft_type
                    then v <- get aircraft "aircraft_type" ;; Ok (ne v aircraft_type)
                    else Ok false) ;;
      if skip_type then filter_loop aircraft_type registration limit rest aircraft_list
      else
        skip_reg <- (if truthy registration
                     then v <- get aircraft "registration" ;; Ok (ne v registration)
                     else Ok false) ;;
        if skip_reg then filter_loop aircraft_type registration limit rest aircraft_list
        else
          let aircraft_list := (aircraft_list ++ [aircraft])%list in
          if len aircraft_list >=? limit then Ok aircraft_list
          else filter_loop aircraft_type registration limit rest aircraft_list
  end.

Definition api_type (api_key : option string) : string :=
  if truthy api_key then "premium" else "public".

(** [fetch_aircraft_data] (lines 48-138).  [net] is what [requests.get] does
    when it is called; the result pairs the request that was issued with the
    value returned (or the exception that escapes). *)
Definition fetch_aircraft_data (aircraft_type registration bounds : option string)
    (limit : Z) (api_key : option string) (net : result Response)
    : Request * result json :=
  let '(base_url, headers) :=
    if truthy api_key then
      ("https://api.flightradar24.com/common/v1/search.json",
       [("Authorization", "Bearer " ++ fmt api_key);
        ("Content-Type", "application/json")])
    else
      ("https://data-live.flightradar24.com/zones/fcgi/feed.js", [])
  in
  let params :=
    [("bounds", if_else bounds "90,-180,-90,180");
     ("faa", "1"); ("mlat", "1"); ("flarm", "1"); ("adsb", "1"); ("gnd", "1");
     ("air", "1"); ("vehicles", "1"); ("estimated", "1"); ("stats", "1")]
  in
  ({| url := base_url; params := params; headers := Some headers; timeout := 30 |},
   try_except
     (response <- net ;;
      _ <- raise_for_status response ;;
      data <- json_ response ;;
      has_aircraft <- contains "aircraft" data ;;
      aircraft_list <-
        (if has_aircraft : bool then
           seq <- getitem data "aircraft" ;;
           items <- iter seq ;;
           filter_loop aircraft_type registration limit items []
         else Ok []) ;;
      Ok (JObj [("status", JStr "success");
                ("count", JInt (len aircraft_list));
                ("aircraft", JArr aircraft_list);
                ("raw_response", data);
                ("api_type", JStr (api_type api_key))]))
     [(RequestException, fun e =>
         Ok (JObj [("status", JStr "error");
                   ("message", JStr ("API request failed: " ++ exn_str e));
                   ("api_type", JStr (api_type api_key))]));
      (JSONDecodeError, fun e =>
         Ok (JObj [("status", JStr "error");
                   ("message", JStr ("Failed to parse JSON response: " ++ exn_str e));
                   ("api_type", JStr (api_type api_key))]))]).

(** [get_api_key_from_env] (lines 141-143). *)
Definition get_api_key_from_env (env : Process.environ) : option string :=
  Process.getenv "FR24_API_KEY" env.

(** What [parser.parse_args()] returns (lines 161-192): the string options
    are [None] when the flag is absent. *)
Record Namespace : Type := {
  aircraft_type : option string;
  registration : option string;
  bounds : option string;
  limit : Z;
  use_env_key : bool
}.

(** [main] (lines 146-212), from the parsed arguments on. *)
Definition main (args : Namespace) (env : Process.environ)
    (net : result Response) : Process.run :=
  let fetch_and_print (api_key : option string) :=
    let '(request, result) :=
      fetch_aircraft_data (aircraft_type args) (registration args) (bounds args)
        (limit args) api_key net in
    match result with
    | Ok result =>
        {| Process.calls := [request];
           Process.stdout := [Process.PrintJson result 2];
           Process.exit := Ok tt |}
    | Raise e =>
        {| Process.calls := [request];
           Process.stdout := [];
           Process.exit := Raise e |}
    end
  in
  if use_env_key args then
    let api_key := get_api_key_from_env env in
    if negb (truthy api_key) then
      {| Process.calls := [];
         Process.stdout :=
           [Process.Print "Error: FR24_API_KEY environment variable not set"];
         Process.exit := Ok tt |}
    else fetch_and_print api_key
  else fetch_and_print None.

End Main.

(** ** [fr24_tester_backup.py] *)

Module Backup.
Import Py Requests.

(** The loop of lines 78-89. *)
Fixpoint filter_loop (aircraft_type registration : option string) (limit : Z)
    (items : list json) (aircraft_list : list json) : result (list json) :=
  match items with
  | [] => Ok aircraft_list
  | aircraft :: rest =>
      skip_type <- (if truthy aircraft_type
                    then v <- get aircraft "aircraft_type" ;; Ok (ne v aircraft_type)
                    else Ok false) ;;
      if skip_type then filter_loop aircraft_type registration limit rest aircraft_list
      else
        skip_reg <- (if truthy registration
                     then v <- get aircraft "registration" ;; Ok (ne v registration)
                     else Ok false) ;;
        if skip_reg then filter_loop aircraft_type registration limit rest aircraft_list
        else
          let aircraft_list := (aircraft_list ++ [aircraft])%list in
          if len aircraft_list >=? limit then Ok aircraft_list
          else filter_loop aircraft_type registration limit rest aircraft_list
  end.

(** [fetch_aircraft_data] of the backup file (lines 32-107): one endpoint, no
    [headers] keyword, no ['api_type'] in the envelopes. *)
Definition fetch_aircraft_data (aircraft_type registration bounds : option string)
    (limit : Z) (net : result Response) : Request * result json :=
  let base_url := "https://data-live.flightradar24.com/zones/fcgi/feed.js" in
  let params :=
    [("bounds", if_else bounds "90,-180,-90,180");
     ("faa", "1"); ("mlat", "1"); ("flarm", "1"); ("adsb", "1"); ("gnd", "1");
     ("air", "1"); ("vehicles", "1"); ("estimated", "1"); ("stats", "1")]
  in
  ({| url := base_url; params := params; headers := None; timeout := 30 |},
   try_except
     (response <- net ;;
      _ <- raise_for_status response ;;
      data <- json_ response ;;
      has_aircraft <- contains "aircraft" data ;;
      aircraft_list <-
        (if has_aircraft : bool then
           seq <- getitem data "aircraft" ;;
           items <- iter seq ;;
           filter_loop aircraft_type registration limit items []
         else Ok []) ;;
      Ok (JObj [("status", JStr "success");
                ("count", JInt (len aircraft_list));
                ("aircraft", JArr aircraft_list);
                ("raw_response", data)]))
     [(RequestException, fun e =>
         Ok (JObj [("status", JStr "error");
                   ("message", JStr ("API request failed: " ++ exn_str e))]));
      (JSONDecodeError, fun e =>
         Ok (JObj [("status", JStr "error");
                   ("message", JStr ("Failed to parse JSON response: " ++ exn_str e))]))]).

(** What [parser.parse_args()] returns (lines 124-149). *)
Record Namespace : Type := {
  aircraft_type : option string;
  registration : option string;
  bounds : option string;
  limit : Z
}.

(** [main] (lines 110-160), from the parsed arguments on. *)
Definition main (args : Namespace) (net : result Response) : Process.run :=
  let '(request, result) :=
    fetch_aircraft_data (aircraft_type args) (registration args) (bounds args)
      (limit args) net in
  match result with
  | Ok result =>
      {| Process.calls := [request];
         Process.stdout := [Process.PrintJson result 2];
         Process.exit := Ok tt |}
  | Raise e =>
      {| Process.calls := [request];
         Process.stdout := [];
         Process.exit := Raise e |}
  end.

End Backup.

(** ** Vocabulary of the statements *)

Module Spec.
Import Py Requests.

(** A field of a returned envelope (or of any decoded object). *)
Definition lookup (env : json) (key : string) : option json :=
  match env with
  | JObj kvs => dict_get key kvs
  | _ => None
  end.

Definition keys (env : json) : list string :=
  match env with
  | JObj kvs => dict_keys kvs
  | _ => []
  end.

Definition is_dict (v : json) : bool :=
  match v with
  | JObj _ => true
  | _ => false
  end.

(** The record's field [key] is the string the filter [o] holds. *)
Definition field_eq (r : json) (key : string) (o : option string) : bool :=
  match lookup r key with
  | Some v => eq_str v (fmt o)
  | None => false
  end.

(** The record passes every filter that is in force. *)
Definition keep (aircraft_type registration : option string) (r : json) : bool :=
  (negb (truthy aircraft_type) || field_eq r "aircraft_type" aircraft_type)
  && (negb (truthy registration) || field_eq r "registration" registration).

(** The loop body can test the record: with a filter in force the record
    must have a [get] method. *)
Definition inspectable (aircraft_type registration : option string) (r : json) : bool :=
  negb (truthy aircraft_type || truthy registration) || is_dict r.

(** How many records the loop appends at most to a list of length [n]: it
    tests the length after appending. *)
Definition cap (limit : Z) (n : Z) : nat := Z.to_nat (Z.max 1 (limit - n)).

(** The transport failed: [requests.get] raised a connection error or a
    timeout, or the response has a status [raise_for_status] rejects. *)
Definition transport_failure (net : result Response) : Prop :=
  match net with
  | Raise e => exn_cls e = ConnectionError \/ exn_cls e = Timeout
  | Ok r => 400 <= status_code r < 600
  end.

Definition success_envelope (aircraft_list : list json) (data : json)
    (api : string) : json :=
  JObj [("status", JStr "success");
        ("count", JInt (len aircraft_list));
        ("aircraft", JArr aircraft_list);
        ("raw_response", data);
        ("api_type", JStr api)].

Definition error_envelope (message api : string) : json :=
  JObj [("status", JStr "error");
        ("message", JStr message);
        ("api_type", JStr api)].

(** A header of the issued request. *)
Definition header (req : Request) (name : string) : option string :=
  match headers req with
  | Some hs => option_map snd (find (fun h => String.eqb (fst h) name) hs)
  | None => None
  end.

(** The envelope a call returned carries the endpoint tag [api] and one of
    the two status tags; a call that raised returned no envelope. *)
Definition tagged (res : result json) (api : string) : Prop :=
  match res with
  | Ok env =>
      lookup env "api_type" = Some (JStr api) /\
      (lookup env "status" = Some (JStr "success") \/
       lookup env "status" = Some (JStr "error"))
  | Raise _ => True
  end.

End Spec.

(** ** Sample inputs *)

Module Sample.
Import Py Requests.

Definition record (t r : string) : json :=
  JObj [("aircraft_type", JStr t); ("registration", JStr r)].

Definition body (records : list json) : json := JObj [("aircraft", JArr records)].

Definition reply (status : Z) (phrase : string) (decoded : result json)
    : Response :=
  {| status_code := status; reason := phrase;
     response_url := "https://data-live.flightradar24.com/zones/fcgi/feed.js";
     json_ := decoded |}.

Definition response (status : Z) (phrase : string) (decoded : result json)
    : result Response :=
  Ok (reply status phrase decoded).

Definition ok_response (data : json) : result Response :=
  response 200 "OK" (Ok data).

(** The four records of the example in the specification. *)
Definition fleet : list json :=
  [record "C17" "A"; record "B2" "B"; record "C17" "C"; record "C17" "D"].

(** What [response.json()] raises on a body such as [<html>] with requests
    2.27 or later, and what the standard decoder raises on it. *)
Definition requests_decode_error : exn :=
  Exn RequestsJSONDecodeError "Expecting value: line 1 column 1 (char 0)".
Definition json_decode_error : exn :=
  Exn JSONDecodeError "Expecting value: line 1 column 1 (char 0)".

(** A parsed command line, with and without [--use_env_key]. *)
Definition args (flag : bool) : Main.Namespace :=
  {| Main.aircraft_type := Some "C17"; Main.registration := None;
     Main.bounds := None; Main.limit := 50; Main.use_env_key := flag |}.

End Sample.

(** ** Vocabulary of the further properties *)

Module Behaviour.
Import Py Requests.

(** Lines 104-117 of [fr24_tester.py] as a function of the decoded body:
    the list the loop builds, or the exception raised on the way. *)
Definition extract (aircraft_type registration : option string) (limit : Z)
    (data : json) : result (list json) :=
  has_aircraft <- contains "aircraft" data ;;
  if has_aircraft : bool then
    seq <- getitem data "aircraft" ;;
    items <- iter seq ;;
    Main.filter_loop aircraft_type registration limit items []
  else Ok [].

(** The library keeps to its documented exceptions: [requests.get] raises
    only [RequestException]s, [response.json()] only those or
    [json.JSONDecodeError]s. *)
Definition well_behaved (net : result Response) : Prop :=
  match net with
  | Raise e => isinstance e RequestException = true
  | Ok r =>
      match json_ r with
      | Raise e => isinstance e RequestException || isinstance e JSONDecodeError = true
      | Ok _ => True
      end
  end.

(** A decoded value that is neither a container nor a string. *)
Definition is_scalar (v : json) : bool :=
  match v with
  | JNull | JBool _ | JInt _ | JFloat _ => true
  | JStr _ | JArr _ | JObj _ => false
  end.

(** [short] is an initial segment of [long]. *)
Definition prefix_of (short long : list json) : Prop :=
  exists rest, long = (short ++ rest)%list.

(** The response passes [raise_for_status] and its body decodes to an
    object holding the list [items] under ['aircraft']. *)
Definition carries (r : Response) (items : list json) : Prop :=
  raise_for_status r = Ok tt /\
  exists kvs, json_ r = Ok (JObj kvs) /\ dict_get "aircraft" kvs = Some (JArr items).

(** The list under ['aircraft'] of a returned envelope. *)
Definition kept_of (res : result json) : option (list json) :=
  match res with
  | Ok env =>
      match Spec.lookup env "aircraft" with
      | Some (JArr kept) => Some kept
      | _ => None
      end
  | Raise _ => None
  end.

(** The namespace the backup parser would build from the same command line
    (it has no [--use_env_key]). *)
Definition backup_args (args : Main.Namespace) : Backup.Namespace :=
  {| Backup.aircraft_type := Main.aircraft_type args;
     Backup.registration := Main.registration args;
     Backup.bounds := Main.bounds args;
     Backup.limit := Main.limit args |}.

End Behaviour.

Import Py Requests Spec.

(** ** The filter loop *)

Section FilterLoop.

Variables aircraft_type registration : option string.
Variable limit : Z.

Local Abbreviation loop := (Main.filter_loop aircraft_type registration limit).
Local Abbreviation keepb := (keep aircraft_type registration).
Local Abbreviation inspb := (inspectable aircraft_type registration).

(** One iteration on a record the body can test. *)
Lemma loop_step (a : json) (rest acc : list json) :
  inspb a = true ->
  loop (a :: rest) acc =
    if keepb a then
      if len (acc ++ [a])%list >=? limit then Ok (acc ++ [a])%list
      else loop rest (acc ++ [a])%list
    else loop rest acc.
Proof.
  unfold inspectable, keep, field_eq.
  destruct aircraft_type as [[|c1 s1]|], registration as [[|c2 s2]|], a;
    cbn; try discriminate; intros _; try reflexivity.
  all: repeat match goal with
       | |- context [dict_get ?k ?m] => destruct (dict_get k m); cbn
       | |- context [eq_str ?v ?s] => destruct (eq_str v s); cbn
       end; try reflexivity.
Qed.

(** One iteration on a record the body cannot test: [get] is missing. *)
Lemma loop_step_raise (a : json) (rest acc : list json) :
  inspb a = false ->
  exists msg, loop (a :: rest) acc = Raise (Exn AttributeError msg).
Proof.
  unfold inspectable.
  destruct aircraft_type as [[|c1 s1]|], registration as [[|c2 s2]|], a;
    cbn; try discriminate; intros _; eauto.
Qed.

Lemma len_snoc (acc : list json) (a : json) : len (acc ++ [a])%list = len acc + 1.
Proof. unfold len. rewrite length_app. simpl. lia. Qed.

Lemma cap_pos (n : Z) : exists k, cap limit n = S k.
Proof. exists (Nat.pred (cap limit n)). unfold cap. lia. Qed.

(** On records the body can test the loop returns the first matches, as many
    as the cap allows. *)
Lemma loop_total (items acc : list json) :
  Forall (fun r => inspb r = true) items ->
  loop items acc =
    Ok (acc ++ firstn (cap limit (len acc)) (filter keepb items))%list.
Proof.
  intros Hall. revert acc.
  induction Hall as [|a rest Ha _ IH]; intros acc.
  - cbn. rewrite firstn_nil, app_nil_r. reflexivity.
  - rewrite (loop_step a rest acc Ha). cbn [filter].
    destruct (keepb a); [|apply IH].
    rewrite len_snoc.
    destruct (len acc + 1 >=? limit) eqn:Hge.
    + assert (cap limit (len acc) = 1%nat) as -> by (unfold cap; lia).
      reflexivity.
    + rewrite IH, len_snoc, <- app_assoc. cbn [app].
      assert (cap limit (len acc) = S (cap limit (len acc + 1))) as ->
        by (unfold cap; lia).
      reflexivity.
Qed.

(** Early exit: once the loop has returned a list it appended to and whose
    length reached the limit, it has left through [break], and no record
    after that point is looked at. *)
Lemma loop_early_exit (items more acc kept : list json) :
  loop items acc = Ok kept ->
  kept <> acc ->
  len kept >= limit ->
  loop (items ++ more) acc = Ok kept.
Proof.
  revert acc. induction items as [|a rest IH]; intros acc Hrun Hne Hlen.
  - cbn in Hrun. congruence.
  - destruct (inspb a) eqn:Ha.
    + cbn [app]. rewrite (loop_step a (rest ++ more) acc Ha).
      rewrite (loop_step a rest acc Ha) in Hrun.
      destruct (keepb a); [|now apply IH].
      destruct (len (acc ++ [a])%list >=? limit) eqn:Hge; [exact Hrun|].
      apply IH; trivial.
      intros ->. lia.
    + destruct (loop_step_raise a rest acc Ha) as [msg Hr]. congruence.
Qed.

(** Whatever the records are, a returned list is the given list extended by
    the matches of a prefix of the input, every record of the prefix was
    testable, and the prefix is the whole input unless the loop left through
    [break]. *)
Lemma loop_returns (items acc kept : list json) :
  loop items acc = Ok kept ->
  exists pre post,
    items = (pre ++ post)%list /\
    Forall (fun r => inspb r = true) pre /\
    kept = (acc ++ filter keepb pre)%list /\
    (post = [] \/ (kept <> acc /\ len kept >= limit)).
Proof.
  revert acc. induction items as [|a rest IH]; intros acc Hrun.
  - cbn in Hrun. injection Hrun as <-.
    exists [], []. cbn. rewrite app_nil_r. auto.
  - destruct (inspb a) eqn:Ha.
    + rewrite (loop_step a rest acc Ha) in Hrun.
      destruct (keepb a) eqn:Hk.
      * destruct (len (acc ++ [a])%list >=? limit) eqn:Hge.
        -- injection Hrun as <-.
           exists [a], rest. cbn. rewrite Hk. repeat split; auto.
           right. split; [|lia].
           intros Heq. apply (f_equal (@List.length json)) in Heq.
           rewrite length_app in Heq. simpl in Heq. lia.
        -- destruct (IH _ Hrun) as (pre & post & -> & Hall & -> & Hend).
           exists (a :: pre), post. cbn. rewrite Hk, <- app_assoc.
           repeat split; auto.
           destruct Hend as [->|[Hne Hlen]]; [now left|right].
           split; [|rewrite <- app_assoc in Hlen; exact Hlen].
           intros Heq. apply (f_equal (@List.length json)) in Heq.
           rewrite !length_app in Heq. simpl in Heq. lia.
      * destruct (IH _ Hrun) as (pre & post & -> & Hall & -> & Hend).
        exists (a :: pre), post. cbn. rewrite Hk. repeat split; auto.
    + destruct (loop_step_raise a rest acc Ha) as [msg Hr]. congruence.
Qed.

(** The length of a returned list: the loop appends at least once before it
    looks at the limit. *)
Lemma loop_length (items acc kept : list json) :
  loop items acc = Ok kept ->
  len kept <= Z.max limit (len acc + 1).
Proof.
  revert acc. induction items as [|a rest IH]; intros acc Hrun.
  - cbn in Hrun. injection Hrun as <-. lia.
  - destruct (inspb a) eqn:Ha.
    + rewrite (loop_step a rest acc Ha) in Hrun.
      destruct (keepb a); [|now apply IH].
      destruct (len (acc ++ [a])%list >=? limit) eqn:Hge.
      * injection Hrun as <-. rewrite len_snoc. lia.
      * apply IH in Hrun. rewrite len_snoc in *. lia.
    + destruct (loop_step_raise a rest acc Ha) as [msg Hr]. congruence.
Qed.

(** The only exception the loop raises is the missing [get]. *)
Lemma loop_raises (items acc : list json) (e : exn) :
  loop items acc = Raise e -> exists msg, e = Exn AttributeError msg.
Proof.
  revert acc. induction items as [|a rest IH]; intros acc Hrun.
  - discriminate.
  - destruct (inspb a) eqn:Ha.
    + rewrite (loop_step a rest acc Ha) in Hrun.
      destruct (keepb a); [|now apply IH in Hrun].
      destruct (len (acc ++ [a])%list >=? limit); [discriminate|].
      now apply IH in Hrun.
    + destruct (loop_step_raise a rest acc Ha) as [msg Hr].
      exists msg. congruence.
Qed.

(** Without a filter in force every record is kept. *)
Lemma filter_keep_all (items : list json) :
  truthy aircraft_type = false -> truthy registration = false ->
  filter keepb items = items /\ Forall (fun r => inspb r = true) items.
Proof.
  intros Ht Hr. unfold keep, inspectable. rewrite Ht, Hr. cbn.
  split; [|now apply Forall_forall].
  induction items as [|a rest IH]; cbn; congruence.
Qed.

(** A kept record that was tested under a filter carries the filter's value. *)
Lemma keep_sound (r : json) :
  inspb r = true -> keepb r = true ->
  (truthy aircraft_type = true ->
   get r "aircraft_type" = Ok (JStr (fmt aircraft_type))) /\
  (truthy registration = true ->
   get r "registration" = Ok (JStr (fmt registration))).
Proof.
  unfold inspectable, keep, field_eq, lookup.
  intros Hi Hk. apply andb_prop in Hk as [Ht Hr].
  split; intros Hy; rewrite Hy in *; cbn in *;
    rewrite ?orb_true_r in Hi; cbn in Hi; destruct r; try discriminate; cbn.
  - destruct (dict_get "aircraft_type" kvs) as [[]|]; cbn in Ht; try discriminate.
    apply String.eqb_eq in Ht as ->. reflexivity.
  - destruct (dict_get "registration" kvs) as [[]|]; cbn in Hr; try discriminate.
    apply String.eqb_eq in Hr as ->. reflexivity.
Qed.

End FilterLoop.

(** ** The query function *)

Section Fetch.

Variables aircraft_type registration bounds : option string.
Variable limit : Z.
Variable api_key : option string.

Local Abbreviation fetch :=
  (Main.fetch_aircraft_data aircraft_type registration bounds limit api_key).

Ltac run_fetch :=
  unfold Main.fetch_aircraft_data, Main.api_type;
  destruct (truthy api_key); cbn [fst snd bind try_except dispatch].

(** [requests.get] raised: the handlers decide. *)
Lemma fetch_get_raised (e : exn) :
  snd (fetch (Raise e)) =
    if isinstance e RequestException then
      Ok (error_envelope ("API request failed: " ++ exn_str e) (Main.api_type api_key))
    else if isinstance e JSONDecodeError then
      Ok (error_envelope ("Failed to parse JSON response: " ++ exn_str e)
            (Main.api_type api_key))
    else Raise e.
Proof. run_fetch; reflexivity. Qed.

(** [raise_for_status] raised. *)
Lemma fetch_status_rejected (r : Response) :
  400 <= status_code r < 600 ->
  exists msg,
    snd (fetch (Ok r)) =
      Ok (error_envelope ("API request failed: " ++ msg) (Main.api_type api_key)).
Proof.
  intros Hs. unfold Main.fetch_aircraft_data, Main.api_type, raise_for_status.
  destruct (truthy api_key); cbn [fst snd bind try_except];
    destruct ((400 <=? status_code r) && (status_code r <? 500)) eqn:H4;
    destruct ((500 <=? status_code r) && (status_code r <? 600)) eqn:H5;
    try lia; eexists; reflexivity.
Qed.

Lemma status_accepted (r : Response) :
  ~ 400 <= status_code r < 600 -> raise_for_status r = Ok tt.
Proof.
  intros Hs. unfold raise_for_status.
  destruct ((400 <=? status_code r) && (status_code r <? 500)) eqn:H4;
    destruct ((500 <=? status_code r) && (status_code r <? 600)) eqn:H5;
    try lia; reflexivity.
Qed.

(** [response.json()] raised. *)
Lemma fetch_decode_raised (r : Response) (e : exn) :
  raise_for_status r = Ok tt ->
  json_ r = Raise e ->
  snd (fetch (Ok r)) = snd (fetch (Raise e)).
Proof.
  intros Hs Hj. unfold Main.fetch_aircraft_data.
  destruct (truthy api_key); cbn [fst snd bind try_except]; rewrite Hs, Hj;
    reflexivity.
Qed.

(** The membership test on the decoded body is false. *)
Lemma fetch_no_aircraft (r : Response) (data : json) :
  raise_for_status r = Ok tt ->
  json_ r = Ok data ->
  contains "aircraft" data = Ok false ->
  snd (fetch (Ok r)) = Ok (success_envelope [] data (Main.api_type api_key)).
Proof.
  intros Hs Hj Hc. unfold Main.fetch_aircraft_data, Main.api_type.
  destruct (truthy api_key); cbn [fst snd bind try_except]; rewrite Hs, Hj;
    cbn [bind]; rewrite Hc; reflexivity.
Qed.

(** The decoded body is a dict with a list under ['aircraft'] and the loop
    returns. *)
Lemma fetch_aircraft_list (r : Response) (kvs : list (string * json))
    (items kept : list json) :
  raise_for_status r = Ok tt ->
  json_ r = Ok (JObj kvs) ->
  dict_get "aircraft" kvs = Some (JArr items) ->
  Main.filter_loop aircraft_type registration limit items [] = Ok kept ->
  snd (fetch (Ok r)) =
    Ok (success_envelope kept (JObj kvs) (Main.api_type api_key)).
Proof.
  intros Hs Hj Hd Hl. unfold Main.fetch_aircraft_data, Main.api_type.
  destruct (truthy api_key); cbn [fst snd bind try_except]; rewrite Hs, Hj;
    cbn [bind contains getitem]; rewrite Hd; cbn [bind iter]; rewrite Hl;
    reflexivity.
Qed.

(** ... and the loop raises: the exception escapes both handlers. *)
Lemma fetch_aircraft_list_raised (r : Response) (kvs : list (string * json))
    (items : list json) (msg : string) :
  raise_for_status r = Ok tt ->
  json_ r = Ok (JObj kvs) ->
  dict_get "aircraft" kvs = Some (JArr items) ->
  Main.filter_loop aircraft_type registration limit items [] =
    Raise (Exn AttributeError msg) ->
  snd (fetch (Ok r)) = Raise (Exn AttributeError msg).
Proof.
  intros Hs Hj Hd Hl. unfold Main.fetch_aircraft_data, Main.api_type.
  destruct (truthy api_key); cbn [fst snd bind try_except]; rewrite Hs, Hj;
    cbn [bind contains getitem]; rewrite Hd; cbn [bind iter]; rewrite Hl;
    reflexivity.
Qed.

(** Every envelope the function returns is tagged. *)
Lemma fetch_tagged (net : result Response) :
  tagged (snd (fetch net)) (Main.api_type api_key).
Proof.
  assert (Hd : forall e, tagged (snd (fetch (Raise e))) (Main.api_type api_key)).
  { intros e. rewrite fetch_get_raised.
    destruct (isinstance e RequestException); [cbn; auto|].
    destruct (isinstance e JSONDecodeError); cbn; auto. }
  destruct net as [r|e]; [|apply Hd].
  destruct (raise_for_status r) as [[]|e] eqn:Hs.
  - destruct (json_ r) as [data|e] eqn:Hj.
    + unfold Main.fetch_aircraft_data, Main.api_type in *.
      destruct (truthy api_key); cbn [fst snd bind try_except] in *;
        rewrite Hs, Hj; cbn [bind];
        (destruct (contains "aircraft" data) as [[]|e]; cbn [bind try_except];
         [ destruct (getitem data "aircraft") as [seq|e]; cbn [bind try_except];
           [ destruct (iter seq) as [items|e]; cbn [bind try_except];
             [ destruct (Main.filter_loop _ _ _ items []) as [kept|e];
               cbn [bind try_except] | ] | ] | | ]);
        try (cbn; now auto); try apply (Hd e).
    + rewrite (fetch_decode_raised r e Hs Hj). apply Hd.
  - unfold raise_for_status in Hs.
    assert (400 <= status_code r < 600) as Hr.
    { destruct ((400 <=? status_code r) && (status_code r <? 500)) eqn:H4;
        destruct ((500 <=? status_code r) && (status_code r <? 600)) eqn:H5;
        try discriminate; lia. }
    destruct (fetch_status_rejected r Hr) as [msg ->]. cbn. auto.
Qed.

End Fetch.

(** ** The two files *)

(** The loop is the same text in both files. *)
Lemma backup_loop_eq (aircraft_type registration : option string) (limit : Z)
    (items acc : list json) :
  Backup.filter_loop aircraft_type registration limit items acc =
  Main.filter_loop aircraft_type registration limit items acc.
Proof. reflexivity. Qed.

(** The main function without a credential returns the backup function's
    envelope with the endpoint tag appended, and raises what it raises. *)
Lemma backup_envelope_extended (aircraft_type registration bounds : option string)
    (limit : Z) (net : result Response) :
  snd (Main.fetch_aircraft_data aircraft_type registration bounds limit None net) =
    match snd (Backup.fetch_aircraft_data aircraft_type registration bounds limit net) with
    | Ok (JObj kvs) => Ok (JObj (kvs ++ [("api_type", JStr "public")]))
    | other => other
    end.
Proof.
  unfold Main.fetch_aircraft_data, Backup.fetch_aircraft_data, Main.api_type.
  change Backup.filter_loop with Main.filter_loop.
  cbn [truthy fst snd].
  destruct net as [r|e]; cbn [bind try_except dispatch].
  2:{ destruct (isinstance e RequestException); [reflexivity|].
      destruct (isinstance e JSONDecodeError); reflexivity. }
  repeat match goal with
         | |- try_except (bind ?m _) _ = _ =>
             destruct m as [?|e]; cbn [bind try_except dispatch]
         end;
    try reflexivity;
    match goal with
    | |- context [isinstance ?x RequestException] =>
        destruct (isinstance x RequestException); [reflexivity|];
        destruct (isinstance x JSONDecodeError); reflexivity
    end.
Qed.

(** ** A response whose decoded body holds an ['aircraft'] list *)

Section AircraftList.

Variables aircraft_type registration bounds : option string.
Variable limit : Z.
Variable api_key : option string.
Variable r : Response.
Variable kvs : list (string * json).
Variable items : list json.

Hypothesis status_ok : raise_for_status r = Ok tt.
Hypothesis decoded : json_ r = Ok (JObj kvs).
Hypothesis aircraft : dict_get "aircraft" kvs = Some (JArr items).

Local Abbreviation fetched :=
  (snd (Main.fetch_aircraft_data aircraft_type registration bounds limit api_key
          (Ok r))).
Local Abbreviation loop := (Main.filter_loop aircraft_type registration limit).
Local Abbreviation keepb := (keep aircraft_type registration).
Local Abbreviation envelope :=
  (fun kept => success_envelope kept (JObj kvs) (Main.api_type api_key)).

(** The function returns the loop's list in a success envelope, and raises
    what the loop raises. *)
Lemma list_outcome :
  fetched = match loop items [] with
            | Ok kept => Ok (envelope kept)
            | Raise e => Raise e
            end.
Proof.
  destruct (loop items []) as [kept|e] eqn:Hl.
  - now apply fetch_aircraft_list with (items := items).
  - destruct (loop_raises _ _ _ _ _ _ Hl) as [msg ->].
    now apply fetch_aircraft_list_raised with (kvs := kvs) (items := items).
Qed.

(** What a returned envelope holds, whatever the limit: the matches of a
    prefix of the input, in input order, each carrying the values of the
    filters in force, and at most [max limit 1] of them. *)
Lemma kept_sound (env : json) :
  fetched = Ok env ->
  exists kept pre post,
    env = envelope kept /\
    items = (pre ++ post)%list /\
    kept = filter keepb pre /\
    Forall (fun a =>
      (truthy aircraft_type = true ->
       get a "aircraft_type" = Ok (JStr (fmt aircraft_type))) /\
      (truthy registration = true ->
       get a "registration" = Ok (JStr (fmt registration)))) kept /\
    len kept <= Z.max limit 1.
Proof.
  rewrite list_outcome.
  destruct (loop items []) as [kept|e] eqn:Hl; [|discriminate].
  intros [= <-].
  destruct (loop_returns _ _ _ _ _ _ Hl) as (pre & post & Hi & Hall & Hk & _).
  cbn [app] in Hk.
  exists kept, pre, post. repeat split; trivial.
  - subst kept. apply Forall_forall. intros a Ha.
    apply filter_In in Ha as [Hin Hkeep].
    rewrite Forall_forall in Hall.
    now apply keep_sound; [apply Hall|].
  - apply loop_length in Hl. cbn in Hl. lia.
Qed.

(** With a limit of at least one and records the loop can test, the kept
    list is the first [limit] matches. *)
Lemma kept_first_matches :
  1 <= limit ->
  Forall (fun a => inspectable aircraft_type registration a = true) items ->
  fetched = Ok (envelope (firstn (Z.to_nat limit) (filter keepb items))).
Proof.
  intros Hlim Hall. rewrite list_outcome, (loop_total _ _ _ _ _ Hall).
  cbn [app]. unfold cap. cbn [len List.length Z.of_nat].
  now replace (Z.max 1 (limit - 0)) with limit by lia.
Qed.

(** Records after the one that filled the list do not matter, not even ones
    the loop could not have tested. *)
Lemma kept_early_exit (pre post kept : list json) :
  items = (pre ++ post)%list ->
  loop pre [] = Ok kept ->
  kept <> [] ->
  len kept >= limit ->
  fetched = Ok (envelope kept).
Proof.
  intros Hitems Hl Hne Hlen.
  now rewrite list_outcome, Hitems,
    (loop_early_exit _ _ _ pre post [] kept Hl Hne Hlen).
Qed.

(** Without filters and with a limit of at least one, the kept list is the
    first [limit] records and the count is its length. *)
Lemma unfiltered_first_limit :
  truthy aircraft_type = false -> truthy registration = false ->
  1 <= limit ->
  fetched = Ok (envelope (firstn (Z.to_nat limit) items)) /\
  lookup (envelope (firstn (Z.to_nat limit) items)) "count" =
    Some (JInt (Z.min limit (len items))).
Proof.
  intros Ht Hr Hlim.
  destruct (filter_keep_all _ _ items Ht Hr) as [Hf Hall].
  split.
  - rewrite (kept_first_matches Hlim Hall). now rewrite Hf.
  - cbn. unfold len. rewrite length_firstn. do 2 f_equal. lia.
Qed.

End AircraftList.

(** ** Empty strings and the decoder's exception *)

Lemma loop_empty_type (registration : option string) (limit : Z)
    (items acc : list json) :
  Main.filter_loop (Some "") registration limit items acc =
  Main.filter_loop None registration limit items acc.
Proof.
  revert acc. induction items as [|a rest IH]; intros acc; [reflexivity|].
  cbn [Main.filter_loop truthy bind].
  match goal with
  | |- bind ?m _ = bind ?m _ => destruct m as [[]|?]; cbn [bind]
  end; auto.
  destruct (len (acc ++ [a])%list >=? limit); auto.
Qed.

Lemma loop_empty_registration (aircraft_type : option string) (limit : Z)
    (items acc : list json) :
  Main.filter_loop aircraft_type (Some "") limit items acc =
  Main.filter_loop aircraft_type None limit items acc.
Proof.
  revert acc. induction items as [|a rest IH]; intros acc; [reflexivity|].
  cbn [Main.filter_loop].
  match goal with
  | |- bind ?m _ = bind ?m _ => destruct m as [[]|?]; cbn [bind truthy]
  end; auto.
  destruct (len (acc ++ [a])%list >=? limit); auto.
Qed.

(** Two filter settings under which the loop computes the same function make
    the query function compute the same function. *)
Lemma fetch_loop_ext (t1 r1 t2 r2 bounds : option string) (limit : Z)
    (api_key : option string) (net : result Response) :
  (forall items, Main.filter_loop t1 r1 limit items [] =
                 Main.filter_loop t2 r2 limit items []) ->
  Main.fetch_aircraft_data t1 r1 bounds limit api_key net =
  Main.fetch_aircraft_data t2 r2 bounds limit api_key net.
Proof.
  intros Hloop. unfold Main.fetch_aircraft_data.
  destruct (truthy api_key); f_equal;
    (destruct net as [r|e]; cbn [bind]; [|reflexivity];
     destruct (raise_for_status r) as [?|e]; cbn [bind]; [|reflexivity];
     destruct (json_ r) as [data|e]; cbn [bind]; [|reflexivity];
     destruct (contains "aircraft" data) as [[]|e]; cbn [bind]; try reflexivity;
     destruct (getitem data "aircraft") as [seq|e]; cbn [bind]; [|reflexivity];
     destruct (iter seq) as [items|e]; cbn [bind]; [|reflexivity];
     now rewrite Hloop).
Qed.

(** When [response.json()] raises, the first handler whose class matches
    words the message. *)
Lemma decode_error_message (aircraft_type registration bounds : option string)
    (limit : Z) (api_key : option string) (r : Response) (e : exn) :
  raise_for_status r = Ok tt ->
  json_ r = Raise e ->
  isinstance e JSONDecodeError = true ->
  snd (Main.fetch_aircraft_data aircraft_type registration bounds limit api_key (Ok r)) =
    Ok (error_envelope
          ((if isinstance e RequestException
            then "API request failed: "
            else "Failed to parse JSON response: ") ++ exn_str e)
          (Main.api_type api_key)).
Proof.
  intros Hs Hj He.
  rewrite (fetch_decode_raised _ _ _ _ _ r e Hs Hj), fetch_get_raised, He.
  now destruct (isinstance e RequestException).
Qed.

(** A body that decodes to a scalar makes the membership test raise, and
    neither handler catches a [TypeError]. *)
Lemma scalar_body_raises (aircraft_type registration bounds : option string)
    (limit : Z) (api_key : option string) :
  snd (Main.fetch_aircraft_data aircraft_type registration bounds limit api_key
         (Sample.ok_response JNull)) =
    Raise (Exn TypeError "argument of type 'NoneType' is not iterable").
Proof.
  unfold Main.fetch_aircraft_data. destruct (truthy api_key); reflexivity.
Qed.

(** Iterating a [str] visits code points: the five bytes of an ['a'], a
    three-byte euro sign and a ['b'] are three characters. *)
Example chars_by_code_point :
  chars (String "a" (String (ascii_of_nat 226) (String (ascii_of_nat 130)
          (String (ascii_of_nat 172) (String "b" EmptyString))))) =
    [JStr "a";
     JStr (String (ascii_of_nat 226) (String (ascii_of_nat 130)
            (String (ascii_of_nat 172) EmptyString)));
     JStr "b"].
Proof. reflexivity. Qed.

(** The example of the specification: limit 2, type filter C17. *)
Example spec_example :
  snd (Main.fetch_aircraft_data (Some "C17") None None 2 None
         (Sample.ok_response (Sample.body Sample.fleet))) =
    Ok (success_envelope [Sample.record "C17" "A"; Sample.record "C17" "C"]
          (Sample.body Sample.fleet) "public").
Proof. reflexivity. Qed.

(** What the backup function returns is one of its two envelopes. *)
Lemma backup_shape (aircraft_type registration bounds : option string)
    (limit : Z) (net : result Response) (b : json) :
  snd (Backup.fetch_aircraft_data aircraft_type registration bounds limit net) = Ok b ->
  (exists kept data,
     b = JObj [("status", JStr "success"); ("count", JInt (len kept));
               ("aircraft", JArr kept); ("raw_response", data)]) \/
  (exists msg, b = JObj [("status", JStr "error"); ("message", JStr msg)]).
Proof.
  unfold Backup.fetch_aircraft_data. cbn [fst snd].
  destruct net as [r|e]; cbn [bind try_except dispatch].
  2:{ destruct (isinstance e RequestException); [intros [= <-]; eauto|].
      destruct (isinstance e JSONDecodeError); [intros [= <-]; eauto|].
      discriminate. }
  repeat match goal with
         | |- try_except (bind ?m _) _ = _ -> _ =>
             destruct m as [?|e]; cbn [bind try_except dispatch]
         end;
    try (intros [= <-]; now eauto);
    match goal with
    | |- context [isinstance ?x RequestException] =>
        destruct (isinstance x RequestException); [intros [= <-]; eauto|];
        destruct (isinstance x JSONDecodeError); [intros [= <-]; eauto|];
        discriminate
    end.
Qed.

(** ** The claims of the specification *)

(** C1.  The kept list holds only records matching the supplied filters, in
    input order, and has length at most the requested limit.  The first two
    parts hold ([kept_sound]); the length bound is [max limit 1].  Evaluated
    with a registration filter and a limit of zero, both files keep one
    record: a list longer than the limit. *)
Theorem kept_exceeds_zero_limit :
  snd (Main.fetch_aircraft_data None (Some "C") None 0 None
         (Sample.ok_response (Sample.body Sample.fleet))) =
    Ok (success_envelope [Sample.record "C17" "C"] (Sample.body Sample.fleet) "public") /\
  snd (Backup.fetch_aircraft_data None (Some "C") None 0
         (Sample.ok_response (Sample.body Sample.fleet))) =
    Ok (JObj [("status", JStr "success"); ("count", JInt 1);
              ("aircraft", JArr [Sample.record "C17" "C"]);
              ("raw_response", Sample.body Sample.fleet)]) /\
  len [Sample.record "C17" "C"] > 0.
Proof. repeat split. Qed.

(** C2.  The iteration stops when the number of kept records reaches the
    limit and the kept list is the first [limit] matches.  For a limit of at
    least one this is [kept_first_matches] and [kept_early_exit].  Evaluated
    with the type filter C17 and a limit of zero, the loop keeps the first
    match before it looks at the limit, while the first zero matches are the
    empty list. *)
Theorem zero_limit_keeps_first_match :
  snd (Main.fetch_aircraft_data (Some "C17") None None 0 None
         (Sample.ok_response (Sample.body Sample.fleet))) =
    Ok (success_envelope [Sample.record "C17" "A"] (Sample.body Sample.fleet) "public") /\
  firstn (Z.to_nat 0) (filter (keep (Some "C17") None) Sample.fleet) = [].
Proof. split; reflexivity. Qed.

(** The text of the [HTTPError] that [raise_for_status] builds. *)
Lemma status_rejected_text (r : Response) :
  400 <= status_code r < 600 ->
  exists e,
    raise_for_status r = Raise e /\
    isinstance e RequestException = true /\
    exn_str e =
      str_of_int (status_code r)
      ++ (if status_code r <? 500 then " Client Error: " else " Server Error: ")
      ++ reason r ++ " for url: " ++ response_url r.
Proof.
  intros Hs. unfold raise_for_status.
  destruct ((400 <=? status_code r) && (status_code r <? 500)) eqn:H4.
  - eexists. split; [reflexivity|]. split; [reflexivity|]. cbn [exn_str].
    destruct (status_code r <? 500) eqn:H5; [reflexivity|lia].
  - destruct ((500 <=? status_code r) && (status_code r <? 600)) eqn:H6; [|lia].
    eexists. split; [reflexivity|]. split; [reflexivity|]. cbn [exn_str].
    destruct (status_code r <? 500) eqn:H5; [lia|reflexivity].
Qed.

(** [raise_for_status] raised: the handlers see its exception as they see
    one of [requests.get]. *)
Lemma fetch_status_raised (aircraft_type registration bounds : option string)
    (limit : Z) (api_key : option string) (r : Response) (e : exn) :
  raise_for_status r = Raise e ->
  snd (Main.fetch_aircraft_data aircraft_type registration bounds limit api_key (Ok r)) =
  snd (Main.fetch_aircraft_data aircraft_type registration bounds limit api_key
         (Raise e)).
Proof.
  intros Hr. unfold Main.fetch_aircraft_data.
  destruct (truthy api_key); cbn [fst snd bind try_except]; rewrite Hr;
    reflexivity.
Qed.

(** C3, as amended.  When the transport fails (a connection error, a
    timeout, or a status from 400 to 599) the function returns an envelope
    whose status is ['error'], whose message is ['API request failed: ']
    followed by the text of the exception that was raised (the one
    [requests.get] raised, or the [HTTPError] of [raise_for_status], whose
    text names the status, the reason and the URL), and which has neither
    an ['aircraft'] nor a ['count'] field. *)
Theorem transport_failure_envelope (aircraft_type registration bounds : option string)
    (limit : Z) (api_key : option string) (net : result Response) :
  transport_failure net ->
  exists e env,
    match net with
    | Raise raised => e = raised
    | Ok r =>
        raise_for_status r = Raise e /\
        exn_str e =
          str_of_int (status_code r)
          ++ (if status_code r <? 500 then " Client Error: " else " Server Error: ")
          ++ reason r ++ " for url: " ++ response_url r
    end /\
    snd (Main.fetch_aircraft_data aircraft_type registration bounds limit api_key net)
      = Ok env /\
    lookup env "status" = Some (JStr "error") /\
    lookup env "message" = Some (JStr ("API request failed: " ++ exn_str e)) /\
    lookup env "aircraft" = None /\
    lookup env "count" = None.
Proof.
  destruct net as [r|e]; cbn [transport_failure]; intros Hf.
  - destruct (status_rejected_text r Hf) as (e & Hr & Hi & Htxt).
    exists e. eexists. split; [split; assumption|].
    rewrite (fetch_status_raised _ _ _ _ _ r e Hr), fetch_get_raised, Hi.
    repeat split.
  - exists e. eexists. split; [reflexivity|].
    rewrite fetch_get_raised.
    assert (isinstance e RequestException = true) as ->.
    { unfold isinstance. now destruct Hf as [-> | ->]. }
    repeat split.
Qed.

Lemma transport_failure_envelope_witness :
  transport_failure (Sample.response 503 "Service Unavailable" (Ok JNull)) /\
  exists e env,
    (raise_for_status (Sample.reply 503 "Service Unavailable" (Ok JNull)) = Raise e /\
     exn_str e =
       str_of_int 503 ++ (if 503 <? 500 then " Client Error: " else " Server Error: ")
       ++ "Service Unavailable" ++ " for url: "
       ++ "https://data-live.flightradar24.com/zones/fcgi/feed.js") /\
    snd (Main.fetch_aircraft_data (Some "C17") None None 50 None
           (Sample.response 503 "Service Unavailable" (Ok JNull))) = Ok env /\
    lookup env "status" = Some (JStr "error") /\
    lookup env "message" = Some (JStr ("API request failed: " ++ exn_str e)) /\
    lookup env "aircraft" = None /\
    lookup env "count" = None.
Proof.
  assert (transport_failure (Sample.response 503 "Service Unavailable" (Ok JNull)))
    as Hf by (cbn; lia).
  split; [exact Hf|].
  exact (transport_failure_envelope (Some "C17") None None 50 None
           (Sample.response 503 "Service Unavailable" (Ok JNull)) Hf).
Defined.

(** C3 as stated fails on a status outside 200-299 that [raise_for_status]
    lets through: a 300 response with a JSON body is decoded and filtered,
    and the envelope is a success envelope with its list and count. *)
Lemma status_300_is_decoded :
  ~ (200 <= status_code (Sample.reply 300 "Multiple Choices"
                           (Ok (Sample.body Sample.fleet))) < 300) /\
  exists env,
    snd (Main.fetch_aircraft_data None None None 50 None
           (Sample.response 300 "Multiple Choices" (Ok (Sample.body Sample.fleet))))
      = Ok env /\
    lookup env "status" = Some (JStr "success") /\
    lookup env "aircraft" = Some (JArr Sample.fleet) /\
    lookup env "count" = Some (JInt 4).
Proof.
  split; [cbn; lia|].
  eexists. repeat split.
Qed.

(** C4.  A body that is not JSON yields a failure envelope whose message
    describes a parse failure.  Evaluated on a 200 response whose
    [response.json()] raises [requests.exceptions.JSONDecodeError]: that
    class is a [RequestException], the first [except] clause takes it, and
    the message is the request-failure one. *)
Theorem decode_failure_reported_as_request_failure :
  snd (Main.fetch_aircraft_data None None None 50 None
         (Sample.response 200 "OK" (Raise Sample.requests_decode_error))) =
    Ok (error_envelope
          "API request failed: Expecting value: line 1 column 1 (char 0)" "public").
Proof. reflexivity. Qed.

(** C5.  With a credential the request goes to the premium endpoint and
    carries [Authorization: Bearer <key>], and every returned envelope is
    tagged ['premium']; without one it goes to the public feed with no
    header at all, and every returned envelope is tagged ['public'].  The
    tag is in success and failure envelopes alike.  A credential is a
    non-empty string. *)
Theorem endpoint_selection (aircraft_type registration bounds : option string)
    (limit : Z) (api_key : option string) (net : result Response) :
  let call :=
    Main.fetch_aircraft_data aircraft_type registration bounds limit api_key net in
  match api_key with
  | Some (String c k) =>
      url (fst call) = "https://api.flightradar24.com/common/v1/search.json" /\
      header (fst call) "Authorization" = Some ("Bearer " ++ String c k) /\
      tagged (snd call) "premium"
  | _ =>
      url (fst call) = "https://data-live.flightradar24.com/zones/fcgi/feed.js" /\
      headers (fst call) = Some [] /\
      tagged (snd call) "public"
  end.
Proof.
  intros call.
  pose proof (fetch_tagged aircraft_type registration bounds limit api_key net)
    as Ht.
  fold call in Ht. unfold Main.api_type in Ht.
  destruct api_key as [[|c k]|]; cbn [truthy] in Ht;
    (split; [reflexivity|split; [reflexivity|exact Ht]]).
Qed.

(** C6.  The query parameters are ['bounds'], holding the supplied string or
    the world-wide default when none is supplied, followed by the nine
    flags, each ['1']; the same in both files, whatever the endpoint and the
    filters. *)
Theorem query_parameters (aircraft_type registration bounds : option string)
    (limit : Z) (api_key : option string) (net : result Response) :
  let assembled :=
    [("bounds", match bounds with
                | Some (String c s) => String c s
                | _ => "90,-180,-90,180"
                end);
     ("faa", "1"); ("mlat", "1"); ("flarm", "1"); ("adsb", "1"); ("gnd", "1");
     ("air", "1"); ("vehicles", "1"); ("estimated", "1"); ("stats", "1")] in
  params (fst (Main.fetch_aircraft_data aircraft_type registration bounds limit
                 api_key net)) = assembled /\
  params (fst (Backup.fetch_aircraft_data aircraft_type registration bounds limit
                 net)) = assembled.
Proof.
  unfold Main.fetch_aircraft_data, Backup.fetch_aircraft_data, if_else.
  destruct (truthy api_key); split; reflexivity.
Qed.

(** C7.  Without filters the kept list is the first [limit] records and the
    count is its length.  For a limit of at least one this is
    [unfiltered_first_limit].  Evaluated with a limit of zero, the first
    record is kept and the count is one, while the first zero records are
    the empty list. *)
Theorem unfiltered_zero_limit_keeps_one :
  snd (Main.fetch_aircraft_data None None None 0 None
         (Sample.ok_response (Sample.body Sample.fleet))) =
    Ok (JObj [("status", JStr "success"); ("count", JInt 1);
              ("aircraft", JArr [Sample.record "C17" "A"]);
              ("raw_response", Sample.body Sample.fleet);
              ("api_type", JStr "public")]) /\
  firstn (Z.to_nat 0) Sample.fleet = [].
Proof. split; reflexivity. Qed.

(** C8.  The backup function and the main function called without a
    credential raise the same exception or return envelopes that agree on
    ['status'], ['count'], ['aircraft'], ['raw_response'] and ['message'];
    the main envelope has the backup envelope's keys followed by
    ['api_type'], which the backup envelope lacks. *)
Theorem backup_is_subset (aircraft_type registration bounds : option string)
    (limit : Z) (net : result Response) :
  match snd (Backup.fetch_aircraft_data aircraft_type registration bounds limit net),
        snd (Main.fetch_aircraft_data aircraft_type registration bounds limit None net)
  with
  | Ok b, Ok m =>
      Forall (fun k => lookup m k = lookup b k)
        ["status"; "count"; "aircraft"; "raw_response"; "message"] /\
      keys m = (keys b ++ ["api_type"])%list /\
      lookup b "api_type" = None
  | Raise e, Raise e' => e = e'
  | _, _ => False
  end.
Proof.
  rewrite backup_envelope_extended.
  destruct (snd (Backup.fetch_aircraft_data _ _ _ _ _)) as [b|e] eqn:Hb;
    [|reflexivity].
  apply backup_shape in Hb as [(kept & data & ->)|(msg & ->)];
    (split; [repeat constructor|split; reflexivity]).
Qed.

(** With no filter in force the function keeps the first [max limit 1]
    records of the list, whatever they are. *)
Lemma unfiltered_exact (aircraft_type registration bounds : option string)
    (limit : Z) (api_key : option string) (r : Response)
    (kvs : list (string * json)) (items : list json) :
  truthy aircraft_type = false -> truthy registration = false ->
  raise_for_status r = Ok tt ->
  json_ r = Ok (JObj kvs) ->
  dict_get "aircraft" kvs = Some (JArr items) ->
  snd (Main.fetch_aircraft_data aircraft_type registration bounds limit api_key (Ok r)) =
    Ok (success_envelope (firstn (Z.to_nat (Z.max 1 limit)) items) (JObj kvs)
          (Main.api_type api_key)).
Proof.
  intros Ht Hg Hs Hj Hd.
  destruct (filter_keep_all aircraft_type registration items Ht Hg) as [Hid Hall].
  rewrite (list_outcome aircraft_type registration bounds limit api_key r kvs
             items Hs Hj Hd), (loop_total _ _ _ _ _ Hall), Hid.
  cbn [app]. unfold cap. cbn [len List.length Z.of_nat].
  now replace (limit - 0) with limit by lia.
Qed.

(** C9.  An empty string is an omitted argument: as type filter, as
    registration filter, as bounds and as credential it gives the request
    and the result of [None].  An empty-string filter excludes no record:
    on a response that carries a list, with each filter empty or omitted,
    the kept list is the first [max limit 1] records of the list as they
    are, with their number as count.  Empty bounds send the default box and
    an empty credential selects the public feed, tagged ['public']. *)
Theorem empty_string_is_omitted (aircraft_type registration bounds : option string)
    (limit : Z) (api_key : option string) (net : result Response) :
  Main.fetch_aircraft_data (Some "") registration bounds limit api_key net =
    Main.fetch_aircraft_data None registration bounds limit api_key net /\
  Main.fetch_aircraft_data aircraft_type (Some "") bounds limit api_key net =
    Main.fetch_aircraft_data aircraft_type None bounds limit api_key net /\
  Main.fetch_aircraft_data aircraft_type registration (Some "") limit api_key net =
    Main.fetch_aircraft_data aircraft_type registration None limit api_key net /\
  Main.fetch_aircraft_data aircraft_type registration bounds limit (Some "") net =
    Main.fetch_aircraft_data aircraft_type registration bounds limit None net /\
  (forall (r : Response) (kvs : list (string * json)) (items : list json),
     raise_for_status r = Ok tt ->
     json_ r = Ok (JObj kvs) ->
     dict_get "aircraft" kvs = Some (JArr items) ->
     let everything :=
       Ok (JObj [("status", JStr "success");
                 ("count", JInt (len (firstn (Z.to_nat (Z.max 1 limit)) items)));
                 ("aircraft", JArr (firstn (Z.to_nat (Z.max 1 limit)) items));
                 ("raw_response", JObj kvs);
                 ("api_type", JStr (if truthy api_key then "premium" else "public"))])
     in
     snd (Main.fetch_aircraft_data (Some "") (Some "") bounds limit api_key (Ok r))
       = everything /\
     snd (Main.fetch_aircraft_data (Some "") None bounds limit api_key (Ok r))
       = everything /\
     snd (Main.fetch_aircraft_data None (Some "") bounds limit api_key (Ok r))
       = everything) /\
  (forall r, keep (Some "") (Some "") r = true) /\
  In ("bounds", "90,-180,-90,180")
     (params (fst (Main.fetch_aircraft_data aircraft_type registration (Some "")
                     limit api_key net))) /\
  url (fst (Main.fetch_aircraft_data aircraft_type registration bounds limit
              (Some "") net)) =
    "https://data-live.flightradar24.com/zones/fcgi/feed.js" /\
  tagged (snd (Main.fetch_aircraft_data aircraft_type registration bounds limit
                 (Some "") net)) "public".
Proof.
  split; [apply fetch_loop_ext; intros items; apply loop_empty_type|].
  split; [apply fetch_loop_ext; intros items; apply loop_empty_registration|].
  split; [reflexivity|].
  split; [reflexivity|].
  split.
  { intros r kvs items Hs Hj Hd everything.
    split; [|split].
    - exact (unfiltered_exact (Some "") (Some "") bounds limit api_key r kvs
               items eq_refl eq_refl Hs Hj Hd).
    - exact (unfiltered_exact (Some "") None bounds limit api_key r kvs
               items eq_refl eq_refl Hs Hj Hd).
    - exact (unfiltered_exact None (Some "") bounds limit api_key r kvs
               items eq_refl eq_refl Hs Hj Hd). }
  split; [intros r; reflexivity|].
  split; [unfold Main.fetch_aircraft_data; destruct (truthy api_key); cbn; auto|].
  split; [reflexivity|].
  apply (fetch_tagged aircraft_type registration bounds limit (Some "") net).
Qed.

Lemma empty_string_is_omitted_witness :
  raise_for_status (Sample.reply 200 "OK" (Ok (Sample.body Sample.fleet))) = Ok tt /\
  json_ (Sample.reply 200 "OK" (Ok (Sample.body Sample.fleet))) =
    Ok (JObj [("aircraft", JArr Sample.fleet)]) /\
  dict_get "aircraft" [("aircraft", JArr Sample.fleet)] = Some (JArr Sample.fleet) /\
  snd (Main.fetch_aircraft_data (Some "") (Some "") None 3 None
         (Ok (Sample.reply 200 "OK" (Ok (Sample.body Sample.fleet))))) =
    Ok (JObj [("status", JStr "success");
              ("count", JInt 3);
              ("aircraft", JArr [Sample.record "C17" "A"; Sample.record "B2" "B";
                                 Sample.record "C17" "C"]);
              ("raw_response", JObj [("aircraft", JArr Sample.fleet)]);
              ("api_type", JStr "public")]).
Proof.
  split; [reflexivity|]. split; [reflexivity|]. split; [reflexivity|].
  exact (proj1 (proj1 (proj2 (proj2 (proj2 (proj2
           (empty_string_is_omitted None None None 3 None
              (Sample.ok_response (Sample.body Sample.fleet)))))))
           (Sample.reply 200 "OK" (Ok (Sample.body Sample.fleet)))
           [("aircraft", JArr Sample.fleet)] Sample.fleet
           eq_refl eq_refl eq_refl)).
Defined.

(** C10, as amended.  A successful response whose decoded body lacks
    ['aircraft'] in the sense of the code's own test, ['aircraft' in data]
    being false (an object without that key, an array without that string,
    a string without that substring), gives a success envelope with count
    0, an empty list and the decoded body under ['raw_response']. *)
Theorem missing_aircraft_key (aircraft_type registration bounds : option string)
    (limit : Z) (api_key : option string) (r : Response) (data : json) :
  200 <= status_code r < 300 ->
  json_ r = Ok data ->
  contains "aircraft" data = Ok false ->
  snd (Main.fetch_aircraft_data aircraft_type registration bounds limit api_key
         (Ok r)) =
    Ok (JObj [("status", JStr "success");
              ("count", JInt 0);
              ("aircraft", JArr []);
              ("raw_response", data);
              ("api_type", JStr (if truthy api_key then "premium" else "public"))]).
Proof.
  intros Hs Hj Hc.
  apply fetch_no_aircraft; trivial.
  apply status_accepted. lia.
Qed.

Lemma missing_aircraft_key_witness :
  200 <= status_code (Sample.reply 200 "OK" (Ok (JObj [("full_count", JInt 0)])))
    < 300 /\
  json_ (Sample.reply 200 "OK" (Ok (JObj [("full_count", JInt 0)]))) =
    Ok (JObj [("full_count", JInt 0)]) /\
  contains "aircraft" (JObj [("full_count", JInt 0)]) = Ok false /\
  snd (Main.fetch_aircraft_data (Some "C17") None None 50 None
         (Ok (Sample.reply 200 "OK" (Ok (JObj [("full_count", JInt 0)]))))) =
    Ok (JObj [("status", JStr "success");
              ("count", JInt 0);
              ("aircraft", JArr []);
              ("raw_response", JObj [("full_count", JInt 0)]);
              ("api_type", JStr "public")]).
Proof.
  split; [cbn; lia|].
  split; [reflexivity|].
  split; [reflexivity|].
  apply (missing_aircraft_key (Some "C17") None None 50 None
           (Sample.reply 200 "OK" (Ok (JObj [("full_count", JInt 0)])))
           (JObj [("full_count", JInt 0)])); [cbn; lia|reflexivity|reflexivity].
Defined.

(** C10 as stated fails on a body that decodes to a value without keys: a
    200 response whose body is [null] decodes, has no ['aircraft'] key, and
    the membership test raises a [TypeError] that escapes the function. *)
Lemma null_body_escapes :
  200 <= status_code (Sample.reply 200 "OK" (Ok JNull)) < 300 /\
  json_ (Sample.reply 200 "OK" (Ok JNull)) = Ok JNull /\
  lookup JNull "aircraft" = None /\
  snd (Main.fetch_aircraft_data None None None 50 None
         (Ok (Sample.reply 200 "OK" (Ok JNull)))) =
    Raise (Exn TypeError "argument of type 'NoneType' is not iterable").
Proof.
  split; [cbn; lia|]. repeat split.
Qed.

(** ** Further properties of the query function *)

Import Behaviour.

(** What [extract] raises is a [TypeError] of the membership test, the
    subscript or the iteration, or the loop's [AttributeError]. *)
Lemma extract_raises (aircraft_type registration : option string) (limit : Z)
    (data : json) (e : exn) :
  extract aircraft_type registration limit data = Raise e ->
  exn_cls e = TypeError \/ exn_cls e = AttributeError.
Proof.
  unfold extract.
  destruct data as [| | | | s |items|kvs]; cbn [contains bind];
    try (intros [= <-]; now left).
  - destruct (str_contains "aircraft" s); cbn; [|discriminate].
    intros [= <-]. now left.
  - destruct (existsb _ items); cbn; [|discriminate].
    intros [= <-]. now left.
  - cbn [getitem]. destruct (dict_get "aircraft" kvs) as [v|]; [|discriminate].
    cbn [bind].
    destruct v; cbn [iter bind]; try (intros [= <-]; now left);
      intros Hl; apply loop_raises in Hl as [msg ->]; now right.
Qed.

(** Once the body is decoded, the function returns [extract]'s list in a
    success envelope and lets [extract]'s exception through. *)
Lemma fetch_via_extract (aircraft_type registration bounds : option string)
    (limit : Z) (api_key : option string) (r : Response) (data : json) :
  raise_for_status r = Ok tt ->
  json_ r = Ok data ->
  snd (Main.fetch_aircraft_data aircraft_type registration bounds limit api_key (Ok r)) =
    match extract aircraft_type registration limit data with
    | Ok kept => Ok (success_envelope kept data (Main.api_type api_key))
    | Raise e => Raise e
    end.
Proof.
  intros Hs Hj.
  destruct (extract aircraft_type registration limit data) as [kept|e] eqn:He.
  - unfold extract in He. unfold Main.fetch_aircraft_data, Main.api_type.
    destruct (truthy api_key); cbn [fst snd bind try_except]; rewrite Hs, Hj;
      cbn [bind];
      (destruct (contains "aircraft" data) as [[]|e']; cbn [bind] in *;
       [rewrite He|injection He as <-|discriminate]; reflexivity).
  - pose proof (extract_raises _ _ _ _ _ He) as Hc.
    assert (isinstance e RequestException = false /\
            isinstance e JSONDecodeError = false) as [H1 H2].
    { unfold isinstance. destruct Hc as [-> | ->]; split; reflexivity. }
    unfold extract in He. unfold Main.fetch_aircraft_data, Main.api_type.
    destruct (truthy api_key); cbn [fst snd bind try_except]; rewrite Hs, Hj;
      cbn [bind];
      (destruct (contains "aircraft" data) as [[]|e']; cbn [bind] in *;
       [rewrite He|discriminate|injection He as ->];
       cbn [bind try_except dispatch]; rewrite H1, H2; reflexivity).
Qed.

Lemma status_cases (r : Response) :
  raise_for_status r = Ok tt \/ 400 <= status_code r < 600.
Proof.
  destruct (Z_le_dec 400 (status_code r)) as [H4|H4];
    [destruct (Z_lt_dec (status_code r) 600) as [H6|H6]|];
    try (right; lia); left; apply status_accepted; lia.
Qed.

(** X2.  Every envelope the function returns has one of two shapes.  A
    success envelope is returned only when the response passed
    [raise_for_status] and its body decoded; its count is the length of its
    list and its ['raw_response'] is the decoded body.  An error envelope
    has exactly a status, a message and the endpoint tag, and is returned
    only when [requests.get] raised, the status was rejected or the decoder
    raised. *)
Theorem returned_envelope_shape (aircraft_type registration bounds : option string)
    (limit : Z) (api_key : option string) (net : result Response) (env : json) :
  snd (Main.fetch_aircraft_data aircraft_type registration bounds limit api_key net)
    = Ok env ->
  (exists r data kept,
     net = Ok r /\ raise_for_status r = Ok tt /\ json_ r = Ok data /\
     env = JObj [("status", JStr "success");
                 ("count", JInt (len kept));
                 ("aircraft", JArr kept);
                 ("raw_response", data);
                 ("api_type", JStr (Main.api_type api_key))]) \/
  (exists message,
     env = JObj [("status", JStr "error");
                 ("message", JStr message);
                 ("api_type", JStr (Main.api_type api_key))] /\
     match net with
     | Raise _ => True
     | Ok r => 400 <= status_code r < 600 \/ exists e, json_ r = Raise e
     end).
Proof.
  destruct net as [r|e].
  - destruct (status_cases r) as [Hs|Hs].
    + destruct (json_ r) as [data|e] eqn:Hj.
      * rewrite (fetch_via_extract _ _ _ _ _ r data Hs Hj).
        destruct (extract aircraft_type registration limit data) as [kept|e];
          [|discriminate].
        intros [= <-]. left. exists r, data, kept. auto.
      * rewrite (fetch_decode_raised _ _ _ _ _ r e Hs Hj), fetch_get_raised.
        destruct (isinstance e RequestException);
          [|destruct (isinstance e JSONDecodeError); [|discriminate]];
          intros [= <-]; right; eexists; (split; [reflexivity|eauto]).
    + destruct (fetch_status_rejected aircraft_type registration bounds limit
                  api_key r Hs) as [msg ->].
      intros [= <-]. right. eexists. split; [reflexivity|auto].
  - rewrite fetch_get_raised.
    destruct (isinstance e RequestException);
      [|destruct (isinstance e JSONDecodeError); [|discriminate]];
      intros [= <-]; right; eexists; (split; [reflexivity|exact I]).
Qed.

Lemma returned_envelope_shape_witness :
  snd (Main.fetch_aircraft_data (Some "C17") None None 2 None
         (Sample.ok_response (Sample.body Sample.fleet))) =
    Ok (success_envelope [Sample.record "C17" "A"; Sample.record "C17" "C"]
          (Sample.body Sample.fleet) "public") /\
  ((exists r data kept,
      Sample.ok_response (Sample.body Sample.fleet) = Ok r /\
      raise_for_status r = Ok tt /\ json_ r = Ok data /\
      success_envelope [Sample.record "C17" "A"; Sample.record "C17" "C"]
        (Sample.body Sample.fleet) "public" =
        JObj [("status", JStr "success");
              ("count", JInt (len kept));
              ("aircraft", JArr kept);
              ("raw_response", data);
              ("api_type", JStr (Main.api_type None))]) \/
   (exists message,
      success_envelope [Sample.record "C17" "A"; Sample.record "C17" "C"]
        (Sample.body Sample.fleet) "public" =
        JObj [("status", JStr "error");
              ("message", JStr message);
              ("api_type", JStr (Main.api_type None))] /\
      match Sample.ok_response (Sample.body Sample.fleet) with
      | Raise _ => True
      | Ok r => 400 <= status_code r < 600 \/ exists e, json_ r = Raise e
      end)).
Proof.
  split; [reflexivity|].
  exact (returned_envelope_shape (Some "C17") None None 2 None
           (Sample.ok_response (Sample.body Sample.fleet)) _ eq_refl).
Defined.

(** X3.  When the library keeps to its documented exceptions, the only
    exceptions that escape the function are a [TypeError] (the decoded body
    or the value under ['aircraft'] has the wrong type) and an
    [AttributeError] (a record without [get] met a filter); in particular a
    [KeyError] never escapes: the subscript is guarded by the membership
    test. *)
Theorem escaping_exceptions (aircraft_type registration bounds : option string)
    (limit : Z) (api_key : option string) (net : result Response) (e : exn) :
  well_behaved net ->
  snd (Main.fetch_aircraft_data aircraft_type registration bounds limit api_key net)
    = Raise e ->
  exn_cls e = TypeError \/ exn_cls e = AttributeError.
Proof.
  intros Hw. destruct net as [r|e0]; cbn [well_behaved] in Hw.
  - destruct (status_cases r) as [Hs|Hs].
    + destruct (json_ r) as [data|e0] eqn:Hj.
      * rewrite (fetch_via_extract _ _ _ _ _ r data Hs Hj).
        destruct (extract aircraft_type registration limit data) as [kept|e1] eqn:He;
          [discriminate|].
        intros [= <-]. exact (extract_raises _ _ _ _ _ He).
      * rewrite (fetch_decode_raised _ _ _ _ _ r e0 Hs Hj), fetch_get_raised.
        destruct (isinstance e0 RequestException); [discriminate|].
        cbn in Hw. rewrite Hw. discriminate.
    + destruct (fetch_status_rejected aircraft_type registration bounds limit
                  api_key r Hs) as [msg ->].
      discriminate.
  - rewrite fetch_get_raised, Hw. discriminate.
Qed.

Lemma escaping_exceptions_witness :
  well_behaved (Sample.ok_response (Sample.body [JInt 7])) /\
  snd (Main.fetch_aircraft_data (Some "C17") None None 50 None
         (Sample.ok_response (Sample.body [JInt 7]))) =
    Raise (Exn AttributeError "'int' object has no attribute 'get'") /\
  (exn_cls (Exn AttributeError "'int' object has no attribute 'get'") = TypeError \/
   exn_cls (Exn AttributeError "'int' object has no attribute 'get'") = AttributeError).
Proof.
  split; [exact I|]. split; [reflexivity|].
  exact (escaping_exceptions (Some "C17") None None 50 None
           (Sample.ok_response (Sample.body [JInt 7])) _ I eq_refl).
Defined.

(** ** More about the loop *)

Lemma firstn_whole (l : list json) (n : nat) :
  (List.length l <= n)%nat -> firstn n l = l.
Proof.
  revert n. induction l as [|a l IH]; intros [|n] Hn; cbn in *;
    try reflexivity; try lia.
  f_equal. apply IH. lia.
Qed.

Lemma filter_both (f g : json -> bool) (l : list json) :
  filter (fun a => f a && g a) l = filter g (filter f l).
Proof.
  induction l as [|a l IH]; [reflexivity|].
  cbn. destruct (f a); cbn; [destruct (g a)|]; now rewrite IH.
Qed.

Lemma filter_again (f : json -> bool) (l : list json) :
  filter f (filter f l) = filter f l.
Proof.
  induction l as [|a l IH]; [reflexivity|].
  cbn. destruct (f a) eqn:Hf; cbn; rewrite ?Hf, IH; reflexivity.
Qed.

Lemma filter_length_le (f : json -> bool) (l : list json) :
  len (filter f l) <= len l.
Proof.
  unfold len. induction l as [|a l IH]; cbn [filter]; [lia|].
  destruct (f a); cbn [List.length]; lia.
Qed.

(** While the matches of a prefix do not fill the list, the loop walks
    through the prefix and goes on with the rest. *)
Lemma loop_app_continue (aircraft_type registration : option string) (limit : Z)
    (pre rest acc : list json) :
  Forall (fun a => inspectable aircraft_type registration a = true) pre ->
  filter (keep aircraft_type registration) pre = [] \/
    len acc + len (filter (keep aircraft_type registration) pre) < limit ->
  Main.filter_loop aircraft_type registration limit (pre ++ rest) acc =
  Main.filter_loop aircraft_type registration limit rest
    (acc ++ filter (keep aircraft_type registration) pre).
Proof.
  intros Hall. revert acc.
  induction Hall as [|a pre Ha _ IH]; intros acc Hroom.
  - cbn. now rewrite app_nil_r.
  - cbn [app]. rewrite (loop_step _ _ _ a (pre ++ rest) acc Ha).
    cbn [filter] in *.
    destruct (keep aircraft_type registration a).
    + destruct Hroom as [Hnil|Hroom]; [discriminate|].
      unfold len in Hroom. cbn [List.length] in Hroom.
      rewrite len_snoc.
      destruct (len acc + 1 >=? limit) eqn:Hge; [unfold len in Hge; lia|].
      rewrite IH.
      * now rewrite <- app_assoc.
      * right. rewrite len_snoc. unfold len. lia.
    + apply IH. exact Hroom.
Qed.

(** A smaller limit returns an initial segment of what a larger limit
    returns. *)
Lemma loop_limit_mono (aircraft_type registration : option string)
    (small large : Z) (items acc kept' : list json) :
  small <= large ->
  Main.filter_loop aircraft_type registration large items acc = Ok kept' ->
  exists kept,
    Main.filter_loop aircraft_type registration small items acc = Ok kept /\
    prefix_of kept kept'.
Proof.
  intros Hle. revert acc.
  induction items as [|a rest IH]; intros acc Hrun.
  - cbn in *. exists acc. split; [reflexivity|].
    injection Hrun as <-. exists []. now rewrite app_nil_r.
  - destruct (inspectable aircraft_type registration a) eqn:Ha.
    + rewrite (loop_step _ _ large a rest acc Ha) in Hrun.
      rewrite (loop_step _ _ small a rest acc Ha).
      destruct (keep aircraft_type registration a); [|now apply IH].
      destruct (len (acc ++ [a])%list >=? large) eqn:Hl.
      * injection Hrun as <-.
        destruct (len (acc ++ [a])%list >=? small) eqn:Hs; [|lia].
        eexists. split; [reflexivity|]. exists []. now rewrite app_nil_r.
      * destruct (len (acc ++ [a])%list >=? small) eqn:Hs; [|now apply IH].
        eexists. split; [reflexivity|].
        destruct (loop_returns _ _ _ _ _ _ Hrun) as (pre & post & _ & _ & -> & _).
        now eexists.
    + destruct (loop_step_raise aircraft_type registration large a rest acc Ha)
        as [msg Hr].
      congruence.
Qed.

(** The loop returns what it is given when that is its own result. *)
Lemma loop_idempotent (aircraft_type registration : option string) (limit : Z)
    (items kept : list json) :
  Main.filter_loop aircraft_type registration limit items [] = Ok kept ->
  Main.filter_loop aircraft_type registration limit kept [] = Ok kept.
Proof.
  intros Hrun.
  pose proof (loop_length _ _ _ _ _ _ Hrun) as Hlen.
  destruct (loop_returns _ _ _ _ _ _ Hrun) as (pre & post & _ & Hall & Hk & _).
  cbn [app] in Hk.
  assert (Forall (fun a => inspectable aircraft_type registration a = true) kept)
    as Hall'.
  { subst kept. rewrite Forall_forall in *. intros a Hin.
    apply filter_In in Hin as [Hin _]. now apply Hall. }
  rewrite (loop_total _ _ _ _ _ Hall'). cbn [app].
  assert (filter (keep aircraft_type registration) kept = kept) as ->
    by (subst kept; apply filter_again).
  rewrite firstn_whole; [reflexivity|].
  unfold cap, len in *. cbn [List.length Z.of_nat] in *. lia.
Qed.

(** With room for every record, filtering by both filters is filtering by
    type and then filtering the result by registration. *)
Lemma loop_composes (aircraft_type registration : option string) (limit : Z)
    (items kept : list json) :
  len items <= limit ->
  Main.filter_loop aircraft_type registration limit items [] = Ok kept ->
  exists by_type,
    Main.filter_loop aircraft_type None limit items [] = Ok by_type /\
    Main.filter_loop None registration limit by_type [] = Ok kept.
Proof.
  intros Hroom Hrun.
  destruct (loop_returns _ _ _ _ _ _ Hrun) as (pre & post & Hi & Hall & Hk & Hend).
  cbn [app] in Hk.
  assert (post = []) as ->.
  { destruct Hend as [->|[_ Hfull]]; [reflexivity|].
    pose proof (filter_length_le (keep aircraft_type registration) pre) as Hf.
    rewrite <- Hk in Hf. subst items. unfold len in *.
    rewrite length_app in Hroom.
    destruct post; [reflexivity|cbn [List.length] in Hroom; lia]. }
  rewrite app_nil_r in Hi. subst pre.
  assert (Forall (fun a => inspectable aircraft_type None a = true) items) as H1.
  { rewrite Forall_forall in *. intros a Hin. specialize (Hall a Hin).
    unfold inspectable in *. cbn [truthy] in *.
    destruct (truthy aircraft_type); cbn in *; [|reflexivity].
    exact Hall. }
  exists (filter (keep aircraft_type None) items).
  pose proof (filter_length_le (keep aircraft_type None) items) as Hl1.
  split.
  - rewrite (loop_total _ _ _ _ _ H1). cbn [app].
    rewrite firstn_whole; [reflexivity|].
    unfold cap, len in *. cbn [List.length Z.of_nat]. lia.
  - assert (Forall (fun a => inspectable None registration a = true)
              (filter (keep aircraft_type None) items)) as H2.
    { rewrite Forall_forall in *. intros a Hin.
      apply filter_In in Hin as [Hin _]. specialize (Hall a Hin).
      unfold inspectable in *. cbn [truthy] in *.
      destruct (truthy registration); [|reflexivity].
      now rewrite orb_true_r in Hall. }
    rewrite (loop_total _ _ _ _ _ H2). cbn [app].
    pose proof (filter_length_le (keep None registration)
                  (filter (keep aircraft_type None) items)) as Hl2.
    rewrite firstn_whole by (unfold cap, len in *; cbn [List.length Z.of_nat]; lia).
    rewrite <- filter_both. subst kept. f_equal.
    apply filter_ext. intros a. unfold keep. cbn [truthy negb orb].
    now rewrite andb_true_r.
Qed.

(** ** The request, the list and the body *)

(** The request in closed form. *)
Lemma fetch_request (aircraft_type registration bounds : option string)
    (limit : Z) (api_key : option string) (net : result Response) :
  fst (Main.fetch_aircraft_data aircraft_type registration bounds limit api_key net) =
    {| url := if truthy api_key
              then "https://api.flightradar24.com/common/v1/search.json"
              else "https://data-live.flightradar24.com/zones/fcgi/feed.js";
       params :=
         [("bounds", if_else bounds "90,-180,-90,180");
          ("faa", "1"); ("mlat", "1"); ("flarm", "1"); ("adsb", "1"); ("gnd", "1");
          ("air", "1"); ("vehicles", "1"); ("estimated", "1"); ("stats", "1")];
       headers := Some (if truthy api_key
                        then [("Authorization", "Bearer " ++ fmt api_key);
                              ("Content-Type", "application/json")]
                        else []);
       timeout := 30 |}.
Proof. unfold Main.fetch_aircraft_data. destruct (truthy api_key); reflexivity. Qed.

Lemma kept_of_carries (aircraft_type registration bounds : option string)
    (limit : Z) (api_key : option string) (r : Response) (items : list json) :
  carries r items ->
  kept_of (snd (Main.fetch_aircraft_data aircraft_type registration bounds limit
                  api_key (Ok r))) =
    match Main.filter_loop aircraft_type registration limit items [] with
    | Ok kept => Some kept
    | Raise _ => None
    end.
Proof.
  intros (Hs & kvs & Hj & Hd).
  rewrite (list_outcome aircraft_type registration bounds limit api_key r kvs
             items Hs Hj Hd).
  now destruct (Main.filter_loop aircraft_type registration limit items []).
Qed.

(** X1.  The request does not depend on the filters, on the limit or on
    what the network does: the type and registration filters and the cap are
    applied to the decoded body only and are never sent to the server.  The
    timeout is always 30 seconds.  The same holds in the backup file. *)
Theorem request_ignores_filters (t1 r1 t2 r2 bounds : option string)
    (l1 l2 : Z) (api_key : option string) (n1 n2 : result Response) :
  fst (Main.fetch_aircraft_data t1 r1 bounds l1 api_key n1) =
    fst (Main.fetch_aircraft_data t2 r2 bounds l2 api_key n2) /\
  timeout (fst (Main.fetch_aircraft_data t1 r1 bounds l1 api_key n1)) = 30 /\
  fst (Backup.fetch_aircraft_data t1 r1 bounds l1 n1) =
    fst (Backup.fetch_aircraft_data t2 r2 bounds l2 n2) /\
  timeout (fst (Backup.fetch_aircraft_data t1 r1 bounds l1 n1)) = 30.
Proof.
  rewrite !fetch_request. repeat split.
Qed.

(** X4.  On a list of records the loop can test (objects, or anything when
    no filter is in force) the function returns, for every limit, exactly
    the first [max limit 1] matching records in input order, with their
    number as count and the whole decoded body as ['raw_response']. *)
Theorem kept_exact (aircraft_type registration bounds : option string)
    (limit : Z) (api_key : option string) (r : Response)
    (kvs : list (string * json)) (items : list json) :
  raise_for_status r = Ok tt ->
  json_ r = Ok (JObj kvs) ->
  dict_get "aircraft" kvs = Some (JArr items) ->
  Forall (fun a => inspectable aircraft_type registration a = true) items ->
  snd (Main.fetch_aircraft_data aircraft_type registration bounds limit api_key (Ok r)) =
    Ok (JObj
          [("status", JStr "success");
           ("count", JInt (len (firstn (Z.to_nat (Z.max 1 limit))
                                  (filter (keep aircraft_type registration) items))));
           ("aircraft", JArr (firstn (Z.to_nat (Z.max 1 limit))
                                (filter (keep aircraft_type registration) items)));
           ("raw_response", JObj kvs);
           ("api_type", JStr (if truthy api_key then "premium" else "public"))]).
Proof.
  intros Hs Hj Hd Hall.
  rewrite (list_outcome aircraft_type registration bounds limit api_key r kvs
             items Hs Hj Hd), (loop_total _ _ _ _ _ Hall).
  cbn [app]. unfold cap. cbn [len List.length Z.of_nat].
  now replace (limit - 0) with limit by lia.
Qed.

Lemma kept_exact_witness :
  raise_for_status (Sample.reply 200 "OK" (Ok (Sample.body Sample.fleet))) = Ok tt /\
  json_ (Sample.reply 200 "OK" (Ok (Sample.body Sample.fleet))) =
    Ok (JObj [("aircraft", JArr Sample.fleet)]) /\
  dict_get "aircraft" [("aircraft", JArr Sample.fleet)] = Some (JArr Sample.fleet) /\
  Forall (fun a => inspectable (Some "C17") None a = true) Sample.fleet /\
  snd (Main.fetch_aircraft_data (Some "C17") None None (-3) None
         (Ok (Sample.reply 200 "OK" (Ok (Sample.body Sample.fleet))))) =
    Ok (JObj
          [("status", JStr "success");
           ("count", JInt (len (firstn (Z.to_nat (Z.max 1 (-3)))
                                  (filter (keep (Some "C17") None) Sample.fleet))));
           ("aircraft", JArr (firstn (Z.to_nat (Z.max 1 (-3)))
                                (filter (keep (Some "C17") None) Sample.fleet)));
           ("raw_response", JObj [("aircraft", JArr Sample.fleet)]);
           ("api_type", JStr (if truthy None then "premium" else "public"))]).
Proof.
  assert (Forall (fun a => inspectable (Some "C17") None a = true) Sample.fleet)
    as Hall by (repeat constructor).
  split; [reflexivity|]. split; [reflexivity|]. split; [reflexivity|].
  split; [exact Hall|].
  exact (kept_exact (Some "C17") None None (-3) None
           (Sample.reply 200 "OK" (Ok (Sample.body Sample.fleet)))
           [("aircraft", JArr Sample.fleet)] Sample.fleet
           eq_refl eq_refl eq_refl Hall).
Defined.

(** X5.  With a filter in force, a record that is not an object makes the
    call raise [AttributeError] when the loop reaches it, that is when the
    matches before it have not filled the list; nothing is returned, not
    even the records kept so far. *)
Theorem malformed_record_raises (aircraft_type registration bounds : option string)
    (limit : Z) (api_key : option string) (r : Response)
    (kvs : list (string * json)) (pre post : list json) (bad : json) :
  raise_for_status r = Ok tt ->
  json_ r = Ok (JObj kvs) ->
  dict_get "aircraft" kvs = Some (JArr (pre ++ bad :: post)) ->
  truthy aircraft_type || truthy registration = true ->
  Forall (fun a => is_dict a = true) pre ->
  is_dict bad = false ->
  filter (keep aircraft_type registration) pre = [] \/
    len (filter (keep aircraft_type registration) pre) < limit ->
  exists msg,
    snd (Main.fetch_aircraft_data aircraft_type registration bounds limit api_key
           (Ok r)) = Raise (Exn AttributeError msg).
Proof.
  intros Hs Hj Hd Hf Hpre Hbad Hroom.
  rewrite (list_outcome aircraft_type registration bounds limit api_key r kvs
             _ Hs Hj Hd).
  rewrite loop_app_continue.
  - destruct (loop_step_raise aircraft_type registration limit bad post
                ([] ++ filter (keep aircraft_type registration) pre)) as [msg ->].
    + unfold inspectable. now rewrite Hf, Hbad.
    + now exists msg.
  - rewrite Forall_forall in *. intros a Hin. unfold inspectable.
    rewrite (Hpre a Hin). apply orb_true_r.
  - destruct Hroom as [Hnil|Hlt]; [now left|right].
    cbn [len List.length Z.of_nat]. lia.
Qed.

Lemma malformed_record_raises_witness :
  raise_for_status
    (Sample.reply 200 "OK"
       (Ok (Sample.body ([Sample.record "B2" "B"] ++ JNull :: [Sample.record "C17" "A"]))))
    = Ok tt /\
  truthy (Some "C17") || truthy None = true /\
  Forall (fun a => is_dict a = true) [Sample.record "B2" "B"] /\
  is_dict JNull = false /\
  (filter (keep (Some "C17") None) [Sample.record "B2" "B"] = [] \/
   len (filter (keep (Some "C17") None) [Sample.record "B2" "B"]) < 50) /\
  exists msg,
    snd (Main.fetch_aircraft_data (Some "C17") None None 50 None
           (Ok (Sample.reply 200 "OK"
                  (Ok (Sample.body ([Sample.record "B2" "B"] ++ JNull ::
                                      [Sample.record "C17" "A"]))))))
      = Raise (Exn AttributeError msg).
Proof.
  assert (Forall (fun a => is_dict a = true) [Sample.record "B2" "B"]) as Hpre
    by (repeat constructor).
  split; [reflexivity|]. split; [reflexivity|]. split; [exact Hpre|].
  split; [reflexivity|]. split; [left; reflexivity|].
  exact (malformed_record_raises (Some "C17") None None 50 None
           (Sample.reply 200 "OK"
              (Ok (Sample.body ([Sample.record "B2" "B"] ++ JNull ::
                                  [Sample.record "C17" "A"]))))
           [("aircraft", JArr ([Sample.record "B2" "B"] ++ JNull ::
                                 [Sample.record "C17" "A"]))]
           [Sample.record "B2" "B"] [Sample.record "C17" "A"] JNull
           eq_refl eq_refl eq_refl eq_refl Hpre eq_refl (or_introl eq_refl)).
Defined.

(** X6.  Lowering the limit only shortens the result: on the same response,
    if the call with the larger limit returns a list, the call with a
    smaller limit returns an initial segment of it (it cannot raise where
    the larger one did not). *)
Theorem smaller_limit_prefix (aircraft_type registration bounds : option string)
    (small large : Z) (api_key : option string) (r : Response)
    (items kept' : list json) :
  carries r items ->
  small <= large ->
  kept_of (snd (Main.fetch_aircraft_data aircraft_type registration bounds large
                  api_key (Ok r))) = Some kept' ->
  exists kept,
    kept_of (snd (Main.fetch_aircraft_data aircraft_type registration bounds small
                    api_key (Ok r))) = Some kept /\
    prefix_of kept kept'.
Proof.
  intros Hc Hle. rewrite !(kept_of_carries _ _ _ _ _ r items Hc).
  destruct (Main.filter_loop aircraft_type registration large items [])
    as [k|e] eqn:Hl; [|discriminate].
  intros [= ->].
  destruct (loop_limit_mono _ _ small large items [] kept' Hle Hl)
    as (kept & -> & Hp).
  now exists kept.
Qed.

Lemma smaller_limit_prefix_witness :
  carries (Sample.reply 200 "OK" (Ok (Sample.body Sample.fleet))) Sample.fleet /\
  1 <= 2 /\
  kept_of (snd (Main.fetch_aircraft_data (Some "C17") None None 2 None
                  (Ok (Sample.reply 200 "OK" (Ok (Sample.body Sample.fleet))))))
    = Some [Sample.record "C17" "A"; Sample.record "C17" "C"] /\
  exists kept,
    kept_of (snd (Main.fetch_aircraft_data (Some "C17") None None 1 None
                    (Ok (Sample.reply 200 "OK" (Ok (Sample.body Sample.fleet))))))
      = Some kept /\
    prefix_of kept [Sample.record "C17" "A"; Sample.record "C17" "C"].
Proof.
  assert (carries (Sample.reply 200 "OK" (Ok (Sample.body Sample.fleet)))
            Sample.fleet) as Hc.
  { split; [reflexivity|]. eexists. split; reflexivity. }
  assert (1 <= 2) as Hle by lia.
  split; [exact Hc|]. split; [exact Hle|]. split; [reflexivity|].
  exact (smaller_limit_prefix (Some "C17") None None 1 2 None
           (Sample.reply 200 "OK" (Ok (Sample.body Sample.fleet)))
           Sample.fleet _ Hc Hle eq_refl).
Defined.

(** X7.  Filtering is idempotent: when a call returned the list [kept], the
    same call on a response that carries [kept] returns [kept] again. *)
Theorem refilter_idempotent (aircraft_type registration bounds : option string)
    (limit : Z) (api_key : option string) (r r' : Response)
    (items kept : list json) :
  carries r items ->
  kept_of (snd (Main.fetch_aircraft_data aircraft_type registration bounds limit
                  api_key (Ok r))) = Some kept ->
  carries r' kept ->
  kept_of (snd (Main.fetch_aircraft_data aircraft_type registration bounds limit
                  api_key (Ok r'))) = Some kept.
Proof.
  intros Hc Hk Hc'.
  rewrite (kept_of_carries _ _ _ _ _ r items Hc) in Hk.
  rewrite (kept_of_carries _ _ _ _ _ r' kept Hc').
  destruct (Main.filter_loop aircraft_type registration limit items [])
    as [k|e] eqn:Hl; [|discriminate].
  injection Hk as ->.
  now rewrite (loop_idempotent _ _ _ _ _ Hl).
Qed.

Lemma refilter_idempotent_witness :
  carries (Sample.reply 200 "OK" (Ok (Sample.body Sample.fleet))) Sample.fleet /\
  kept_of (snd (Main.fetch_aircraft_data (Some "C17") None None 2 None
                  (Ok (Sample.reply 200 "OK" (Ok (Sample.body Sample.fleet))))))
    = Some [Sample.record "C17" "A"; Sample.record "C17" "C"] /\
  carries (Sample.reply 200 "OK"
             (Ok (Sample.body [Sample.record "C17" "A"; Sample.record "C17" "C"])))
    [Sample.record "C17" "A"; Sample.record "C17" "C"] /\
  kept_of (snd (Main.fetch_aircraft_data (Some "C17") None None 2 None
                  (Ok (Sample.reply 200 "OK"
                         (Ok (Sample.body [Sample.record "C17" "A";
                                           Sample.record "C17" "C"]))))))
    = Some [Sample.record "C17" "A"; Sample.record "C17" "C"].
Proof.
  assert (forall l, carries (Sample.reply 200 "OK" (Ok (Sample.body l))) l) as Hc.
  { intros l. split; [reflexivity|]. eexists. split; reflexivity. }
  split; [apply Hc|]. split; [reflexivity|]. split; [apply Hc|].
  exact (refilter_idempotent (Some "C17") None None 2 None _ _ Sample.fleet _
           (Hc Sample.fleet) eq_refl (Hc _)).
Defined.

(** X8.  The two filters compose.  When the limit leaves room for every
    record, the call with both filters returns what filtering by
    registration alone returns on the result of filtering by type alone. *)
Theorem filters_compose (aircraft_type registration bounds : option string)
    (limit : Z) (api_key : option string) (r : Response)
    (items kept : list json) :
  carries r items ->
  len items <= limit ->
  kept_of (snd (Main.fetch_aircraft_data aircraft_type registration bounds limit
                  api_key (Ok r))) = Some kept ->
  exists by_type,
    kept_of (snd (Main.fetch_aircraft_data aircraft_type None bounds limit
                    api_key (Ok r))) = Some by_type /\
    forall r',
      carries r' by_type ->
      kept_of (snd (Main.fetch_aircraft_data None registration bounds limit
                      api_key (Ok r'))) = Some kept.
Proof.
  intros Hc Hroom. rewrite !(kept_of_carries _ _ _ _ _ r items Hc).
  destruct (Main.filter_loop aircraft_type registration limit items [])
    as [k|e] eqn:Hl; [|discriminate].
  intros [= ->].
  destruct (loop_composes _ _ _ _ _ Hroom Hl) as (by_type & -> & H2).
  exists by_type. split; [reflexivity|].
  intros r' Hc'. now rewrite (kept_of_carries _ _ _ _ _ r' by_type Hc'), H2.
Qed.

Lemma filters_compose_witness :
  carries (Sample.reply 200 "OK" (Ok (Sample.body Sample.fleet))) Sample.fleet /\
  len Sample.fleet <= 50 /\
  kept_of (snd (Main.fetch_aircraft_data (Some "C17") (Some "C") None 50 None
                  (Ok (Sample.reply 200 "OK" (Ok (Sample.body Sample.fleet))))))
    = Some [Sample.record "C17" "C"] /\
  exists by_type,
    kept_of (snd (Main.fetch_aircraft_data (Some "C17") None None 50 None
                    (Ok (Sample.reply 200 "OK" (Ok (Sample.body Sample.fleet))))))
      = Some by_type /\
    forall r',
      carries r' by_type ->
      kept_of (snd (Main.fetch_aircraft_data None (Some "C") None 50 None (Ok r')))
        = Some [Sample.record "C17" "C"].
Proof.
  assert (carries (Sample.reply 200 "OK" (Ok (Sample.body Sample.fleet)))
            Sample.fleet) as Hc.
  { split; [reflexivity|]. eexists. split; reflexivity. }
  assert (len Sample.fleet <= 50) as Hroom by (cbn; lia).
  split; [exact Hc|]. split; [exact Hroom|]. split; [reflexivity|].
  exact (filters_compose (Some "C17") (Some "C") None 50 None
           (Sample.reply 200 "OK" (Ok (Sample.body Sample.fleet)))
           Sample.fleet _ Hc Hroom eq_refl).
Defined.

(** X9.  A value under ['aircraft'] that is [null], a boolean or a number
    cannot be iterated: a [TypeError] escapes the function. *)
Theorem scalar_aircraft_raises (aircraft_type registration bounds : option string)
    (limit : Z) (api_key : option string) (r : Response)
    (kvs : list (string * json)) (v : json) :
  raise_for_status r = Ok tt ->
  json_ r = Ok (JObj kvs) ->
  dict_get "aircraft" kvs = Some v ->
  is_scalar v = true ->
  exists msg,
    snd (Main.fetch_aircraft_data aircraft_type registration bounds limit api_key
           (Ok r)) = Raise (Exn TypeError msg).
Proof.
  intros Hs Hj Hd Hv.
  rewrite (fetch_via_extract _ _ _ _ _ r (JObj kvs) Hs Hj).
  unfold extract. cbn [contains getitem bind]. rewrite Hd. cbn [bind].
  destruct v; try discriminate; cbn [iter bind]; eauto.
Qed.

Lemma scalar_aircraft_raises_witness :
  raise_for_status (Sample.reply 200 "OK" (Ok (JObj [("aircraft", JNull)]))) = Ok tt /\
  is_scalar JNull = true /\
  exists msg,
    snd (Main.fetch_aircraft_data None None None 50 None
           (Ok (Sample.reply 200 "OK" (Ok (JObj [("aircraft", JNull)])))))
      = Raise (Exn TypeError msg).
Proof.
  split; [reflexivity|]. split; [reflexivity|].
  exact (scalar_aircraft_raises None None None 50 None
           (Sample.reply 200 "OK" (Ok (JObj [("aircraft", JNull)])))
           [("aircraft", JNull)] JNull eq_refl eq_refl eq_refl eq_refl).
Defined.

(** X10.  A body that decodes to something other than an object is judged
    by the membership test alone: when ['aircraft' in data] is false (an
    array without that string, a string without that substring) the call
    succeeds with count 0, an empty list and the body as ['raw_response'];
    otherwise (the test is true, or the body is a scalar) a [TypeError]
    escapes. *)
Theorem non_object_body (aircraft_type registration bounds : option string)
    (limit : Z) (api_key : option string) (r : Response) (data : json) :
  raise_for_status r = Ok tt ->
  json_ r = Ok data ->
  is_dict data = false ->
  match contains "aircraft" data with
  | Ok false =>
      snd (Main.fetch_aircraft_data aircraft_type registration bounds limit
             api_key (Ok r)) =
        Ok (JObj [("status", JStr "success");
                  ("count", JInt 0);
                  ("aircraft", JArr []);
                  ("raw_response", data);
                  ("api_type", JStr (if truthy api_key then "premium" else "public"))])
  | _ =>
      exists msg,
        snd (Main.fetch_aircraft_data aircraft_type registration bounds limit
               api_key (Ok r)) = Raise (Exn TypeError msg)
  end.
Proof.
  intros Hs Hj Hd.
  rewrite (fetch_via_extract _ _ _ _ _ r data Hs Hj). unfold extract.
  destruct data as [| | | | s |items|kvs]; try discriminate;
    cbn [contains bind]; eauto.
  - destruct (str_contains "aircraft" s); cbn; eauto.
  - destruct (existsb _ items); cbn; eauto.
Qed.

Lemma non_object_body_witness :
  raise_for_status (Sample.reply 200 "OK" (Ok (JArr [JStr "feed"; JInt 3]))) = Ok tt /\
  is_dict (JArr [JStr "feed"; JInt 3]) = false /\
  match contains "aircraft" (JArr [JStr "feed"; JInt 3]) with
  | Ok false =>
      snd (Main.fetch_aircraft_data None None None 50 None
             (Ok (Sample.reply 200 "OK" (Ok (JArr [JStr "feed"; JInt 3]))))) =
        Ok (JObj [("status", JStr "success");
                  ("count", JInt 0);
                  ("aircraft", JArr []);
                  ("raw_response", JArr [JStr "feed"; JInt 3]);
                  ("api_type", JStr (if truthy None then "premium" else "public"))])
  | _ =>
      exists msg,
        snd (Main.fetch_aircraft_data None None None 50 None
               (Ok (Sample.reply 200 "OK" (Ok (JArr [JStr "feed"; JInt 3])))))
          = Raise (Exn TypeError msg)
  end.
Proof.
  split; [reflexivity|]. split; [reflexivity|].
  exact (non_object_body None None None 50 None
           (Sample.reply 200 "OK" (Ok (JArr [JStr "feed"; JInt 3])))
           (JArr [JStr "feed"; JInt 3]) eq_refl eq_refl eq_refl).
Defined.

(** X11.  When ['aircraft'] holds an object instead of a list, the loop
    iterates over its keys.  Without a filter the kept list is the first
    [max limit 1] key strings; with a filter in force the first key, a
    string without [get], makes the call raise [AttributeError]. *)
Theorem aircraft_object_iterates_keys
    (aircraft_type registration bounds : option string) (limit : Z)
    (api_key : option string) (r : Response) (kvs m : list (string * json)) :
  raise_for_status r = Ok tt ->
  json_ r = Ok (JObj kvs) ->
  dict_get "aircraft" kvs = Some (JObj m) ->
  match truthy aircraft_type || truthy registration, m with
  | true, _ :: _ =>
      exists msg,
        snd (Main.fetch_aircraft_data aircraft_type registration bounds limit
               api_key (Ok r)) = Raise (Exn AttributeError msg)
  | _, _ =>
      kept_of (snd (Main.fetch_aircraft_data aircraft_type registration bounds
                      limit api_key (Ok r))) =
        Some (firstn (Z.to_nat (Z.max 1 limit)) (map JStr (dict_keys m)))
  end.
Proof.
  intros Hs Hj Hd.
  rewrite (fetch_via_extract _ _ _ _ _ r (JObj kvs) Hs Hj).
  unfold extract. cbn [contains getitem bind]. rewrite Hd. cbn [bind iter].
  destruct (truthy aircraft_type || truthy registration) eqn:Hf.
  - destruct m as [|[k0 v0] m'].
    + cbn. now rewrite firstn_nil.
    + cbn [dict_keys map fst].
      destruct (loop_step_raise aircraft_type registration limit (JStr k0)
                  (map JStr (map fst m')) []) as [msg ->].
      * unfold inspectable. now rewrite Hf.
      * now exists msg.
  - apply orb_false_elim in Hf as [Ht Hr].
    destruct (filter_keep_all aircraft_type registration
                (map JStr (dict_keys m)) Ht Hr) as [Hid Hall].
    rewrite (loop_total _ _ _ _ _ Hall), Hid. cbn [app].
    unfold cap. cbn [len List.length Z.of_nat].
    replace (limit - 0) with limit by lia.
    destruct m; reflexivity.
Qed.

Lemma aircraft_object_iterates_keys_witness :
  raise_for_status
    (Sample.reply 200 "OK"
       (Ok (JObj [("aircraft", JObj [("3a1b2c", Sample.record "C17" "A")])])))
    = Ok tt /\
  exists msg,
    snd (Main.fetch_aircraft_data (Some "C17") None None 50 None
           (Ok (Sample.reply 200 "OK"
                  (Ok (JObj [("aircraft",
                              JObj [("3a1b2c", Sample.record "C17" "A")])])))))
      = Raise (Exn AttributeError msg).
Proof.
  split; [reflexivity|].
  exact (aircraft_object_iterates_keys (Some "C17") None None 50 None
           (Sample.reply 200 "OK"
              (Ok (JObj [("aircraft", JObj [("3a1b2c", Sample.record "C17" "A")])])))
           [("aircraft", JObj [("3a1b2c", Sample.record "C17" "A")])]
           [("3a1b2c", Sample.record "C17" "A")] eq_refl eq_refl eq_refl).
Defined.

(** ** The command-line front ends *)

(** Past the credential check, [main] is one call of the query function
    whose envelope it prints. *)
Lemma main_fetches (args : Main.Namespace) (env : Process.environ)
    (net : result Response) (api_key : option string) :
  (Main.use_env_key args = false /\ api_key = None) \/
  (Main.use_env_key args = true /\
   api_key = Process.getenv "FR24_API_KEY" env /\ truthy api_key = true) ->
  Main.main args env net =
    match snd (Main.fetch_aircraft_data (Main.aircraft_type args)
                 (Main.registration args) (Main.bounds args) (Main.limit args)
                 api_key net) with
    | Ok result =>
        {| Process.calls :=
             [fst (Main.fetch_aircraft_data (Main.aircraft_type args)
                     (Main.registration args) (Main.bounds args) (Main.limit args)
                     api_key net)];
           Process.stdout := [Process.PrintJson result 2];
           Process.exit := Ok tt |}
    | Raise e =>
        {| Process.calls :=
             [fst (Main.fetch_aircraft_data (Main.aircraft_type args)
                     (Main.registration args) (Main.bounds args) (Main.limit args)
                     api_key net)];
           Process.stdout := [];
           Process.exit := Raise e |}
    end.
Proof.
  unfold Main.main, Main.get_api_key_from_env.
  intros [[-> ->]|(-> & -> & ->)]; cbn [negb];
    match goal with
    | |- context [Main.fetch_aircraft_data ?a ?b ?c ?d ?k ?n] =>
        destruct (Main.fetch_aircraft_data a b c d k n) as [req [res|e]]
    end; reflexivity.
Qed.

Lemma dict_get_app_other (kvs : list (string * json)) (key other : string)
    (v : json) :
  key <> other ->
  dict_get key (kvs ++ [(other, v)]) = dict_get key kvs.
Proof.
  intros Hne. induction kvs as [|[k x] kvs IH]; cbn.
  - destruct (String.eqb_spec other key); congruence.
  - now rewrite IH.
Qed.

(** X12.  Asked to use the environment key when [FR24_API_KEY] is unset or
    empty, [main] prints the error line and returns without calling
    [requests.get] and without printing an envelope. *)
Theorem missing_credential_aborts (args : Main.Namespace) (env : Process.environ)
    (net : result Response) :
  Main.use_env_key args = true ->
  Process.getenv "FR24_API_KEY" env = None \/
    Process.getenv "FR24_API_KEY" env = Some "" ->
  Main.main args env net =
    {| Process.calls := [];
       Process.stdout :=
         [Process.Print "Error: FR24_API_KEY environment variable not set"];
       Process.exit := Ok tt |}.
Proof.
  intros Hflag Hkey. unfold Main.main, Main.get_api_key_from_env.
  rewrite Hflag. now destruct Hkey as [-> | ->].
Qed.

Lemma missing_credential_aborts_witness :
  Main.use_env_key
    (Sample.args true) = true /\
  (Process.getenv "FR24_API_KEY" [("HOME", "/root"); ("FR24_API_KEY", "")] = None \/
   Process.getenv "FR24_API_KEY" [("HOME", "/root"); ("FR24_API_KEY", "")] = Some "") /\
  Main.main
    (Sample.args true)
    [("HOME", "/root"); ("FR24_API_KEY", "")]
    (Sample.ok_response (Sample.body Sample.fleet)) =
    {| Process.calls := [];
       Process.stdout :=
         [Process.Print "Error: FR24_API_KEY environment variable not set"];
       Process.exit := Ok tt |}.
Proof.
  split; [reflexivity|]. split; [right; reflexivity|].
  exact (missing_credential_aborts (Sample.args true)
           [("HOME", "/root"); ("FR24_API_KEY", "")]
           (Sample.ok_response (Sample.body Sample.fleet))
           eq_refl (or_intror eq_refl)).
Defined.

(** X13.  Without [--use_env_key] the environment plays no part: [main]
    behaves the same under every environment, its one request goes to the
    public feed without headers even when [FR24_API_KEY] is set, and what
    it prints is tagged ['public']. *)
Theorem environment_ignored_without_flag (args : Main.Namespace)
    (env : Process.environ) (net : result Response) :
  Main.use_env_key args = false ->
  Main.main args env net = Main.main args [] net /\
  (exists req,
     Process.calls (Main.main args env net) = [req] /\
     url req = "https://data-live.flightradar24.com/zones/fcgi/feed.js" /\
     headers req = Some []) /\
  Forall (fun out =>
            exists env, out = Process.PrintJson env 2 /\
                        lookup env "api_type" = Some (JStr "public"))
    (Process.stdout (Main.main args env net)).
Proof.
  intros Hflag.
  rewrite (main_fetches args env net None), (main_fetches args [] net None)
    by (left; auto).
  split; [reflexivity|].
  pose proof (fetch_tagged (Main.aircraft_type args) (Main.registration args)
                (Main.bounds args) (Main.limit args) None net) as Ht.
  destruct (snd (Main.fetch_aircraft_data _ _ _ _ None net)) as [res|e];
    cbn [Process.calls Process.stdout]; rewrite fetch_request; cbn [truthy];
    (split; [eexists; repeat split|]); constructor; [|constructor].
  exists res. split; [reflexivity|]. apply Ht.
Qed.

Lemma environment_ignored_without_flag_witness :
  Main.use_env_key (Sample.args false) = false /\
  (Main.main (Sample.args false) [("FR24_API_KEY", "secret")]
     (Sample.ok_response (Sample.body Sample.fleet)) =
   Main.main (Sample.args false) []
     (Sample.ok_response (Sample.body Sample.fleet)) /\
   (exists req,
      Process.calls
        (Main.main (Sample.args false) [("FR24_API_KEY", "secret")]
           (Sample.ok_response (Sample.body Sample.fleet))) = [req] /\
      url req = "https://data-live.flightradar24.com/zones/fcgi/feed.js" /\
      headers req = Some []) /\
   Forall (fun out =>
             exists env, out = Process.PrintJson env 2 /\
                         lookup env "api_type" = Some (JStr "public"))
     (Process.stdout
        (Main.main (Sample.args false) [("FR24_API_KEY", "secret")]
           (Sample.ok_response (Sample.body Sample.fleet))))).
Proof.
  split; [reflexivity|].
  exact (environment_ignored_without_flag (Sample.args false)
           [("FR24_API_KEY", "secret")]
           (Sample.ok_response (Sample.body Sample.fleet)) eq_refl).
Defined.

(** X14.  With [--use_env_key] and a non-empty [FR24_API_KEY], [main] makes
    one request, to the premium endpoint with the key as bearer token, and
    what it prints is tagged ['premium']. *)
Theorem environment_key_is_sent (args : Main.Namespace) (env : Process.environ)
    (net : result Response) (c : ascii) (k : string) :
  Main.use_env_key args = true ->
  Process.getenv "FR24_API_KEY" env = Some (String c k) ->
  (exists req,
     Process.calls (Main.main args env net) = [req] /\
     url req = "https://api.flightradar24.com/common/v1/search.json" /\
     header req "Authorization" = Some ("Bearer " ++ String c k)) /\
  Forall (fun out =>
            exists env, out = Process.PrintJson env 2 /\
                        lookup env "api_type" = Some (JStr "premium"))
    (Process.stdout (Main.main args env net)).
Proof.
  intros Hflag Hkey.
  rewrite (main_fetches args env net (Some (String c k)))
    by (right; rewrite Hkey; auto).
  pose proof (fetch_tagged (Main.aircraft_type args) (Main.registration args)
                (Main.bounds args) (Main.limit args) (Some (String c k)) net) as Ht.
  destruct (snd (Main.fetch_aircraft_data _ _ _ _ (Some (String c k)) net))
    as [res|e];
    cbn [Process.calls Process.stdout]; rewrite fetch_request; cbn [truthy];
    (split; [eexists; repeat split|]); constructor; [|constructor].
  exists res. split; [reflexivity|]. apply Ht.
Qed.

Lemma environment_key_is_sent_witness :
  Main.use_env_key (Sample.args true) = true /\
  Process.getenv "FR24_API_KEY" [("FR24_API_KEY", "secret")] = Some "secret" /\
  ((exists req,
      Process.calls
        (Main.main (Sample.args true) [("FR24_API_KEY", "secret")]
           (Sample.ok_response (Sample.body Sample.fleet))) = [req] /\
      url req = "https://api.flightradar24.com/common/v1/search.json" /\
      header req "Authorization" = Some ("Bearer " ++ "secret")) /\
   Forall (fun out =>
             exists env, out = Process.PrintJson env 2 /\
                         lookup env "api_type" = Some (JStr "premium"))
     (Process.stdout
        (Main.main (Sample.args true) [("FR24_API_KEY", "secret")]
           (Sample.ok_response (Sample.body Sample.fleet))))).
Proof.
  split; [reflexivity|]. split; [reflexivity|].
  exact (environment_key_is_sent (Sample.args true) [("FR24_API_KEY", "secret")]
           (Sample.ok_response (Sample.body Sample.fleet))
           "s"%char "ecret" eq_refl eq_refl).
Defined.

(** An exception that escapes the query function is one neither handler
    names. *)
Lemma escaped_not_handled (aircraft_type registration bounds : option string)
    (limit : Z) (api_key : option string) (net : result Response) (e : exn) :
  snd (Main.fetch_aircraft_data aircraft_type registration bounds limit api_key net)
    = Raise e ->
  isinstance e RequestException = false /\ isinstance e JSONDecodeError = false.
Proof.
  assert (Hd : forall e0,
             snd (Main.fetch_aircraft_data aircraft_type registration bounds limit
                    api_key (Raise e0)) = Raise e ->
             isinstance e RequestException = false /\
             isinstance e JSONDecodeError = false).
  { intros e0. rewrite fetch_get_raised.
    destruct (isinstance e0 RequestException) eqn:H1; [discriminate|].
    destruct (isinstance e0 JSONDecodeError) eqn:H2; [discriminate|].
    intros [= <-]. auto. }
  destruct net as [r|e0]; [|apply Hd].
  destruct (status_cases r) as [Hs|Hs].
  - destruct (json_ r) as [data|e0] eqn:Hj.
    + rewrite (fetch_via_extract _ _ _ _ _ r data Hs Hj).
      destruct (extract aircraft_type registration limit data) as [kept|e1] eqn:He;
        [discriminate|].
      intros [= <-]. unfold isinstance.
      destruct (extract_raises _ _ _ _ _ He) as [-> | ->]; split; reflexivity.
    + rewrite (fetch_decode_raised _ _ _ _ _ r e0 Hs Hj). apply Hd.
  - destruct (fetch_status_rejected aircraft_type registration bounds limit
                api_key r Hs) as [msg ->].
    discriminate.
Qed.

(** X15.  Whatever the arguments, the environment and the network, [main]
    calls [requests.get] at most once.  When it returns it has printed
    exactly one thing, the error line or one envelope with indent 2; when
    an exception escapes, the one call was made, nothing was printed, and
    the exception is one the query function does not handle. *)
Theorem main_prints_once (args : Main.Namespace) (env : Process.environ)
    (net : result Response) :
  (List.length (Process.calls (Main.main args env net)) <= 1)%nat /\
  match Process.exit (Main.main args env net) with
  | Ok _ =>
      Process.stdout (Main.main args env net) =
        [Process.Print "Error: FR24_API_KEY environment variable not set"] \/
      exists envelope,
        Process.stdout (Main.main args env net) = [Process.PrintJson envelope 2]
  | Raise e =>
      List.length (Process.calls (Main.main args env net)) = 1%nat /\
      Process.stdout (Main.main args env net) = [] /\
      isinstance e RequestException = false /\
      isinstance e JSONDecodeError = false
  end.
Proof.
  assert (Hrun : forall api_key,
            Main.main args env net =
              match snd (Main.fetch_aircraft_data (Main.aircraft_type args)
                           (Main.registration args) (Main.bounds args)
                           (Main.limit args) api_key net) with
              | Ok result =>
                  {| Process.calls :=
                       [fst (Main.fetch_aircraft_data (Main.aircraft_type args)
                               (Main.registration args) (Main.bounds args)
                               (Main.limit args) api_key net)];
                     Process.stdout := [Process.PrintJson result 2];
                     Process.exit := Ok tt |}
              | Raise e =>
                  {| Process.calls :=
                       [fst (Main.fetch_aircraft_data (Main.aircraft_type args)
                               (Main.registration args) (Main.bounds args)
                               (Main.limit args) api_key net)];
                     Process.stdout := [];
                     Process.exit := Raise e |}
              end ->
            (List.length (Process.calls (Main.main args env net)) <= 1)%nat /\
            match Process.exit (Main.main args env net) with
            | Ok _ =>
                Process.stdout (Main.main args env net) =
                  [Process.Print "Error: FR24_API_KEY environment variable not set"] \/
                exists envelope,
                  Process.stdout (Main.main args env net) =
                    [Process.PrintJson envelope 2]
            | Raise e =>
                List.length (Process.calls (Main.main args env net)) = 1%nat /\
                Process.stdout (Main.main args env net) = [] /\
                isinstance e RequestException = false /\
                isinstance e JSONDecodeError = false
            end).
  { intros api_key ->.
    destruct (snd (Main.fetch_aircraft_data _ _ _ _ api_key net)) as [res|e] eqn:Hf;
      cbn [Process.calls Process.stdout Process.exit List.length].
    - split; [lia|]. right. now exists res.
    - split; [lia|]. split; [reflexivity|]. split; [reflexivity|].
      exact (escaped_not_handled _ _ _ _ _ _ _ Hf). }
  destruct (Main.use_env_key args) eqn:Hflag.
  - destruct (truthy (Process.getenv "FR24_API_KEY" env)) eqn:Hkey.
    + apply (Hrun (Process.getenv "FR24_API_KEY" env)).
      apply main_fetches. right. auto.
    + unfold Main.main, Main.get_api_key_from_env. rewrite Hflag, Hkey.
      cbn. split; [lia|]. now left.
  - apply (Hrun None). apply main_fetches. left. auto.
Qed.

(** X16.  On the same command line and the same network, the backup [main]
    and the main [main] without [--use_env_key] end the same way (both
    return, or the same exception escapes), send requests with the same
    URL, parameters and timeout, and print either nothing or envelopes that
    differ only in the main one's trailing ['api_type']. *)
Theorem backup_main_agrees (args : Main.Namespace) (env : Process.environ)
    (net : result Response) :
  Main.use_env_key args = false ->
  Process.exit (Backup.main (backup_args args) net) =
    Process.exit (Main.main args env net) /\
  map (fun q => (url q, params q, timeout q))
      (Process.calls (Backup.main (backup_args args) net)) =
    map (fun q => (url q, params q, timeout q))
      (Process.calls (Main.main args env net)) /\
  List.length (Process.calls (Backup.main (backup_args args) net)) = 1%nat /\
  match Process.stdout (Backup.main (backup_args args) net),
        Process.stdout (Main.main args env net) with
  | [], [] => True
  | [Process.PrintJson b ib], [Process.PrintJson m im] =>
      ib = im /\
      keys m = (keys b ++ ["api_type"])%list /\
      forall key, key <> "api_type" -> lookup m key = lookup b key
  | _, _ => False
  end.
Proof.
  intros Hflag.
  rewrite (main_fetches args env net None) by (left; auto).
  pose proof (backup_envelope_extended (Main.aircraft_type args)
                (Main.registration args) (Main.bounds args) (Main.limit args) net)
    as Hext.
  pose proof (backup_shape (Main.aircraft_type args) (Main.registration args)
                (Main.bounds args) (Main.limit args) net) as Hshape.
  rewrite Hext. unfold Backup.main, backup_args.
  cbn [Backup.aircraft_type Backup.registration Backup.bounds Backup.limit].
  rewrite fetch_request. cbn [truthy].
  destruct (Backup.fetch_aircraft_data (Main.aircraft_type args)
              (Main.registration args) (Main.bounds args) (Main.limit args) net)
    as [req [b|e]] eqn:Hb.
  - cbn [snd] in *.
    assert (req = fst (Backup.fetch_aircraft_data (Main.aircraft_type args)
                         (Main.registration args) (Main.bounds args)
                         (Main.limit args) net)) as Hreq by now rewrite Hb.
    destruct (Hshape b eq_refl) as [(kept & data & ->)|(msg & ->)];
      cbn [Process.calls Process.stdout Process.exit map List.length];
      (split; [reflexivity|]); (split; [now rewrite Hreq|]);
      (split; [reflexivity|]); (split; [reflexivity|]);
      (split; [reflexivity|]);
      intros key Hne; cbn [lookup]; apply dict_get_app_other; exact Hne.
  - cbn [snd] in *.
    assert (req = fst (Backup.fetch_aircraft_data (Main.aircraft_type args)
                         (Main.registration args) (Main.bounds args)
                         (Main.limit args) net)) as Hreq by now rewrite Hb.
    cbn [Process.calls Process.stdout Process.exit map List.length].
    split; [reflexivity|]. split; [now rewrite Hreq|]. split; [reflexivity|].
    exact I.
Qed.

Lemma backup_main_agrees_witness :
  Main.use_env_key (Sample.args false) = false /\
  (Process.exit (Backup.main (backup_args (Sample.args false))
                   (Sample.ok_response (Sample.body Sample.fleet))) =
     Process.exit (Main.main (Sample.args false) [("FR24_API_KEY", "secret")]
                     (Sample.ok_response (Sample.body Sample.fleet))) /\
   map (fun q => (url q, params q, timeout q))
       (Process.calls (Backup.main (backup_args (Sample.args false))
                         (Sample.ok_response (Sample.body Sample.fleet)))) =
     map (fun q => (url q, params q, timeout q))
       (Process.calls (Main.main (Sample.args false) [("FR24_API_KEY", "secret")]
                         (Sample.ok_response (Sample.body Sample.fleet)))) /\
   List.length (Process.calls (Backup.main (backup_args (Sample.args false))
                                 (Sample.ok_response (Sample.body Sample.fleet))))
     = 1%nat /\
   match Process.stdout (Backup.main (backup_args (Sample.args false))
                           (Sample.ok_response (Sample.body Sample.fleet))),
         Process.stdout (Main.main (Sample.args false) [("FR24_API_KEY", "secret")]
                           (Sample.ok_response (Sample.body Sample.fleet))) with
   | [], [] => True
   | [Process.PrintJson b ib], [Process.PrintJson m im] =>
       ib = im /\
       keys m = (keys b ++ ["api_type"])%list /\
       forall key, key <> "api_type" -> lookup m key = lookup b key
   | _, _ => False
   end).
Proof.
  split; [reflexivity|].
  exact (backup_main_agrees (Sample.args false) [("FR24_API_KEY", "secret")]
           (Sample.ok_response (Sample.body Sample.fleet)) eq_refl).
Defined.
